(** * few_shot_classifier: the training cell of the notebook

    A shallow embedding of the cells of [few_shot_classifier.ipynb] that
    configure the episodic samplers, the optimizer and the learning-rate
    schedule, and of the cell that trains the prototypical network while
    tracking the best validation metrics.

    Python objects are modelled the way the interpreter holds them: a tensor
    is a reference into a store of tensor storages, a state dict maps
    parameter names to such references, and the optimizer updates the
    storages in place. *)

From Stdlib Require Import QArith.
From stdpp Require Import gmap strings list fin_maps.

Open Scope Q_scope.

(** ** Tensors, modules and state dicts *)

(** A tensor storage, flattened; its shape is its length. *)
Definition tensor : Type := list Q.

(** The address of a tensor storage. *)
Abbreviation loc := positive.

(** An [nn.Module] as far as the notebook sees it: its registered parameters
    and buffers, by name.  The names are bound once, when the module is
    built; training never rebinds them, it writes into the storages. *)
Record nn_module := { parameters : gmap string loc }.

(** The dictionary built by [state_dict()].  Every call builds a new
    dictionary object ([oid] is its identity), whose values are the module's
    own tensors, detached: they share the parameters' storage. *)
Record OrderedDict := { oid : nat; items : gmap string loc }.

(** The tensors a dictionary of references denotes in a given store. *)
Definition deref (h : gmap loc tensor) (d : gmap string loc) : gmap string tensor :=
  omap (fun l => h !! l) d.

(** ** Configuration cells *)

Definition random_seed : Z := 0.

Definition N_WAY : nat := 2.
Definition N_SHOT : nat := 2.
Definition N_QUERY : nat := 3.

Definition N_TASKS_PER_EPOCH : nat := 10.
Definition N_VALIDATION_TASKS : nat := 100.

Inductive dataset := train_set | validation_set.

Record TaskSampler := {
  sampler_dataset : dataset;
  n_way : nat;
  n_shot : nat;
  n_query : nat;
  n_tasks : nat
}.

Definition train_sampler : TaskSampler :=
  {| sampler_dataset := train_set; n_way := N_WAY; n_shot := N_SHOT;
     n_query := N_QUERY; n_tasks := N_TASKS_PER_EPOCH |}.

Definition validation_sampler : TaskSampler :=
  {| sampler_dataset := validation_set; n_way := N_WAY; n_shot := N_SHOT;
     n_query := N_QUERY; n_tasks := N_VALIDATION_TASKS |}.

Record DataLoader := {
  loader_dataset : dataset;
  batch_sampler : TaskSampler;
  pin_memory : bool
}.

Definition train_loader : DataLoader :=
  {| loader_dataset := train_set; batch_sampler := train_sampler;
     pin_memory := true |}.

Definition validation_loader : DataLoader :=
  {| loader_dataset := validation_set; batch_sampler := validation_sampler;
     pin_memory := true |}.

Inductive loss_fn := CrossEntropyLoss.
Definition LOSS_FN : loss_fn := CrossEntropyLoss.

Definition scheduler_milestones : list Z := [70; 85]%Z.
Definition scheduler_gamma : Q := 1 # 10.

Definition LEARNING_RATE : Q := 1 # 1000.
Definition MOMENTUM : Q := 9 # 10.
Definition DECAY : Q := 5 # 10000.

(** [optim.SGD] as the training pass reads it.  The learning rate is the
    one field that changes during the run, and only the scheduler writes
    it. *)
Record SGD := { sgd_lr : Q; sgd_momentum : Q; sgd_weight_decay : Q }.

Definition N_EPOCHS : nat := 100.
Definition log_update_frequency : nat := 10.

(** ** Observable behaviour *)

Inductive pass := Train | Validation.

(** What the library code leaves behind: one entry per episode it worked
    on, with the batch of sample indices that makes the episode. *)
Inductive lib_event := Episode (p : pass) (task : list nat).

Inductive line :=
| EpochLine (epoch : nat)
| NewBestLine
| BestF1Line (n_epochs : nat) (v : Q)
| BestRecallLine (n_epochs : nat) (v : Q).

Inductive call :=
| training_epoch_call (loader : DataLoader)
| evaluate_model_call (loader : DataLoader)
| scheduler_step_call
| load_state_dict_call (d : OrderedDict).

(** The notebook's own trace: console lines, scalars handed to the
    tensorboard writer, and the calls it makes into the libraries. *)
Inductive event :=
| Printed (l : line)
| AddScalar (tag : string) (value : Q) (global_step : nat)
| Enter (c : call).

Inductive exn := Exception (cls msg : string).

Inductive result (A : Type) :=
| Ok (a : A)
| Raised (e : exn).
Arguments Ok {A} a.
Arguments Raised {A} e.

(** Python's [>] on the metrics, which are finite ratios. *)
Definition Qgtb (x y : Q) : bool :=
  match x ?= y with Gt => true | _ => false end.

(** ** The learning-rate schedule *)

(** [MultiStepLR.get_lr]: the milestones are kept as a counter; an epoch
    that is no milestone leaves the rate alone, a milestone that occurs [n]
    times scales it by [gamma ** n].  Rates are exact decimals here: the
    rates of the notebook, 0.001, 0.0001 and 0.00001, not the rounding or
    underflow of floating-point products in general. *)
Definition MultiStepLR_get_lr (milestones : list Z) (gamma : Q)
    (epoch : Z) (rate : Q) : Q :=
  match count_occ Z.eq_dec milestones epoch with
  | O => rate
  | S n => rate * gamma ^ Z.of_nat (S n)
  end.

Section Notebook.

(** State of the collaborators the notebook cannot see into: the random
    streams behind the samplers, the loaders, the optimizer's momentum
    buffers. *)
Variable E : Type.

(** What library code can read and write: tensor storages, its own
    hidden state, and the list of episodes it has worked on. *)
Record machine := {
  tensors : gmap loc tensor;
  ext : E;
  episodes : list lib_event
}.

(** Library code runs on the machine and may raise. *)
Definition lib (A : Type) : Type := machine -> result A * machine.

(** The interpreter's state while the cells run: the machine, the
    optimizer's learning rate and the scheduler's epoch counter, the
    globals of the training cell, the next fresh object identity, and the
    trace. *)
Record world := {
  mach : machine;
  next_oid : nat;
  lr : Q;
  last_epoch : Z;
  best_state : OrderedDict;
  best_f1_score : Q;
  best_recall : Q;
  out : list event
}.

Definition set_mach (m : machine) (w : world) : world :=
  {| mach := m; next_oid := next_oid w; lr := lr w;
     last_epoch := last_epoch w; best_state := best_state w;
     best_f1_score := best_f1_score w; best_recall := best_recall w;
     out := out w |}.

Definition set_next_oid (n : nat) (w : world) : world :=
  {| mach := mach w; next_oid := n; lr := lr w;
     last_epoch := last_epoch w; best_state := best_state w;
     best_f1_score := best_f1_score w; best_recall := best_recall w;
     out := out w |}.

Definition set_schedule (e : Z) (rate : Q) (w : world) : world :=
  {| mach := mach w; next_oid := next_oid w; lr := rate;
     last_epoch := e; best_state := best_state w;
     best_f1_score := best_f1_score w; best_recall := best_recall w;
     out := out w |}.

Definition set_best_state (d : OrderedDict) (w : world) : world :=
  {| mach := mach w; next_oid := next_oid w; lr := lr w;
     last_epoch := last_epoch w; best_state := d;
     best_f1_score := best_f1_score w; best_recall := best_recall w;
     out := out w |}.

Definition set_best_f1_score (v : Q) (w : world) : world :=
  {| mach := mach w; next_oid := next_oid w; lr := lr w;
     last_epoch := last_epoch w; best_state := best_state w;
     best_f1_score := v; best_recall := best_recall w;
     out := out w |}.

Definition set_best_recall (v : Q) (w : world) : world :=
  {| mach := mach w; next_oid := next_oid w; lr := lr w;
     last_epoch := last_epoch w; best_state := best_state w;
     best_f1_score := best_f1_score w; best_recall := v;
     out := out w |}.

Definition emit (e : event) (w : world) : world :=
  {| mach := mach w; next_oid := next_oid w; lr := lr w;
     last_epoch := last_epoch w; best_state := best_state w;
     best_f1_score := best_f1_score w; best_recall := best_recall w;
     out := out w ++ [e] |}.

Definition set_tensors (h : gmap loc tensor) (m : machine) : machine :=
  {| tensors := h; ext := ext m; episodes := episodes m |}.

(** *** Statements: state and exceptions

    A statement runs on the world and either completes with a value or
    raises.  Nothing is rolled back when it raises: the world in the
    result is the world at the [raise]. *)
Definition M (A : Type) : Type := world -> result A * world.

Definition ret {A} (a : A) : M A := fun w => (Ok a, w).

Definition bind {A B} (m : M A) (k : A -> M B) : M B :=
  fun w =>
    match m w with
    | (Ok a, w') => k a w'
    | (Raised e, w') => (Raised e, w')
    end.

Definition gets {A} (f : world -> A) : M A := fun w => (Ok (f w), w).

Definition modify (f : world -> world) : M unit := fun w => (Ok tt, f w).

Definition raise {A} (e : exn) : M A := fun w => (Raised e, w).

Definition when (b : bool) (m : M unit) : M unit :=
  if b then m else ret tt.

(** [for x in xs: body x] *)
Fixpoint for_each {X} (xs : list X) (body : X -> M unit) : M unit :=
  match xs with
  | [] => ret tt
  | x :: xs' => bind (body x) (fun _ => for_each xs' body)
  end.

(** [range(n)] *)
Definition range (n : nat) : list nat := seq 0 n.

(** A call into library code: entered in the trace, then run on the
    machine. *)
Definition call_lib {A} (c : call) (f : lib A) : M A :=
  fun w =>
    let w1 := emit (Enter c) w in
    let (r, m') := f (mach w1) in (r, set_mach m' w1).

Definition print (l : line) : M unit := modify (emit (Printed l)).

(** [tb_writer.add_scalar(tag, value, step)] *)
Definition add_scalar (tag : string) (v : Q) (step : nat) : M unit :=
  modify (emit (AddScalar tag v step)).

End Notebook.

Arguments tensors {E} _.
Arguments ext {E} _.
Arguments episodes {E} _.
Arguments mach {E} _.
Arguments next_oid {E} _.
Arguments lr {E} _.
Arguments last_epoch {E} _.
Arguments best_state {E} _.
Arguments best_f1_score {E} _.
Arguments best_recall {E} _.
Arguments out {E} _.
Arguments set_mach {E} _ _.
Arguments set_next_oid {E} _ _.
Arguments set_schedule {E} _ _ _.
Arguments set_best_state {E} _ _.
Arguments set_best_f1_score {E} _ _.
Arguments set_best_recall {E} _ _.
Arguments set_tensors {E} _ _.
Arguments emit {E} _ _.
Arguments ret {E A} _ _.
Arguments bind {E A B} _ _ _.
Arguments gets {E A} _ _.
Arguments modify {E} _ _.
Arguments raise {E A} _ _.
Arguments when {E} _ _ _.
Arguments for_each {E X} _ _ _.
Arguments call_lib {E A} _ _ _.
Arguments print {E} _ _.
Arguments add_scalar {E} _ _ _ _.

Declare Scope nb_scope.
Delimit Scope nb_scope with nb.
Notation "x <- m ;; k" := (bind m (fun x => k))
  (at level 100, m at next level, k at level 200, right associativity) : nb_scope.
Notation "m ;; k" := (bind m (fun _ => k))
  (at level 100, k at level 200, right associativity) : nb_scope.
Open Scope nb_scope.

(** ** The framework operations the notebook calls *)

Section Framework.

Variable E : Type.

(** [module.state_dict()]: a new dictionary whose values are the module's
    own tensors.  Nothing is copied. *)
Definition state_dict (m : nn_module) : M E OrderedDict :=
  fun w =>
    (Ok {| oid := next_oid w; items := parameters m |},
     set_next_oid (S (next_oid w)) w).

(** [dst.copy_(src)]: overwrite the storage of [dst] with the contents of
    [src]. *)
Definition copy_ (dst src : loc) (h : gmap loc tensor) : gmap loc tensor :=
  match h !! src with
  | Some v => <[dst := v]> h
  | None => h
  end.

(** Every reference the interpreter hands out has a storage; the branches
    for a reference without one are there for totality only.  A flattened
    storage keeps only the number of elements of its shape, so this is
    what is compared; the notebook only ever loads the module's own
    tensors. *)
Definition same_shape (h : gmap loc tensor) (a b : loc) : bool :=
  match h !! a, h !! b with
  | Some u, Some v => Nat.eqb (length u) (length v)
  | _, _ => true
  end.

(** One parameter of [_load_from_state_dict]: when the dictionary has the
    name and the shapes agree, copy into the parameter in place; otherwise
    record the name and leave the parameter alone. *)
Definition load_entry (d : gmap string loc)
    (acc : gmap loc tensor * list string) (kl : string * loc)
    : gmap loc tensor * list string :=
  match d !! kl.1 with
  | Some src =>
      if same_shape acc.1 kl.2 src
      then (copy_ kl.2 src acc.1, acc.2)
      else (acc.1, acc.2 ++ [kl.1])
  | None => acc
  end.

(** [module.load_state_dict(d)] with the default [strict=True]: every
    parameter present in [d] is overwritten in place, then any missing or
    unexpected name, or any shape mismatch, raises; otherwise the two (empty)
    lists of names are returned. *)
Definition load_state_dict (m : nn_module) (d : OrderedDict)
    : M E (list string * list string) :=
  fun w =>
    let w1 := emit (Enter (load_state_dict_call d)) w in
    let '(h, mismatched) :=
      foldl (load_entry (items d)) (tensors (mach w1), [])
            (map_to_list (parameters m)) in
    let missing_keys := elements (dom (parameters m) ∖ dom (items d)) in
    let unexpected_keys := elements (dom (items d) ∖ dom (parameters m)) in
    let w2 := set_mach (set_tensors h (mach w1)) w1 in
    match missing_keys, unexpected_keys, mismatched with
    | [], [], [] => (Ok (missing_keys, unexpected_keys), w2)
    | _, _, _ =>
        (Raised (Exception "RuntimeError" "Error(s) in loading state_dict"), w2)
    end.

(** [MultiStepLR.step()]: advance the epoch counter, then set the
    optimizer's rate to what [get_lr] computes from the current one. *)
Definition MultiStepLR_step (milestones : list Z) (gamma : Q)
    (w : world E) : world E :=
  let e := (last_epoch w + 1)%Z in
  set_schedule e (MultiStepLR_get_lr milestones gamma e (lr w)) w.

End Framework.

Arguments state_dict {E} _ _.
Arguments load_state_dict {E} _ _ _.
Arguments MultiStepLR_step {E} _ _ _.

(** ** The cells *)

Section Cells.

Variable E : Type.

(** [model = PrototypicalNetworks(backbone, use_softmax = True)] *)
Variable model : nn_module.

(** [FSLMethods.training_epoch] and [FSLMethods.evaluate_model]: imported by
    the notebook, opaque to it.  They see the model, a loader and, for
    training, the optimizer and the loss; they run on the machine. *)
Variable training_epoch :
  nn_module -> DataLoader -> SGD -> loss_fn -> lib E Q.
Variable evaluate_model :
  nn_module -> DataLoader -> lib E (list nat * list nat * Q * Q * Q * Q * Q).

(** [train_optimizer], as the training pass finds it. *)
Definition train_optimizer (w : world E) : SGD :=
  {| sgd_lr := lr w; sgd_momentum := MOMENTUM; sgd_weight_decay := DECAY |}.

(** The cell "Initializing optimizer, loss function, etc": the optimizer
    starts at [LEARNING_RATE]; building the scheduler takes its initial
    step, from epoch -1 to epoch 0. *)
Definition cell_optimizer : M E unit :=
  modify (set_schedule (-1) LEARNING_RATE) ;;
  modify (MultiStepLR_step scheduler_milestones scheduler_gamma).

(** [train_scheduler.step()] *)
Definition train_scheduler_step : M E unit :=
  modify (emit (Enter scheduler_step_call)) ;;
  modify (MultiStepLR_step scheduler_milestones scheduler_gamma).

(** The three assignments that open the training cell. *)
Definition cell_train_init : M E unit :=
  d <- state_dict model ;;
  modify (set_best_state d) ;;
  modify (set_best_f1_score 0) ;;
  modify (set_best_recall 0).

(** The body of [for epoch in range(N_EPOCHS)]. *)
Definition epoch_body (epoch : nat) : M E unit :=
  print (EpochLine epoch) ;;
  optimizer <- gets train_optimizer ;;
  average_epoch_loss <-
    call_lib (training_epoch_call train_loader)
             (training_epoch model train_loader optimizer LOSS_FN) ;;
  ev <- call_lib (evaluate_model_call validation_loader)
                 (evaluate_model model validation_loader) ;;
  let '(actuals, predictions, _, _, recall, _, f1_score) := ev in
  best_f1 <- gets best_f1_score ;;
  when (Qgtb f1_score best_f1)
    (modify (set_best_f1_score f1_score)) ;;
  best_rec <- gets best_recall ;;
  when (Qgtb recall best_rec)
    (modify (set_best_recall recall) ;;
     d <- state_dict model ;;
     modify (set_best_state d) ;;
     print NewBestLine) ;;
  add_scalar "Train/loss" average_epoch_loss epoch ;;
  add_scalar "F1" f1_score epoch ;;
  add_scalar "Recall" recall epoch ;;
  train_scheduler_step.

(** "Retrieve the best model", and the two closing prints. *)
Definition cell_train_finish : M E unit :=
  d <- gets best_state ;;
  keys <- load_state_dict model d ;;
  let '(missing_keys, unexpected_keys) := keys in
  best_f1 <- gets best_f1_score ;;
  print (BestF1Line N_EPOCHS best_f1) ;;
  best_rec <- gets best_recall ;;
  print (BestRecallLine N_EPOCHS best_rec).

(** The cell "Train the model". *)
Definition cell_train : M E unit :=
  cell_train_init ;;
  for_each (range N_EPOCHS) epoch_body ;;
  cell_train_finish.

(** The notebook from the optimizer cell on. *)
Definition notebook : M E unit :=
  cell_optimizer ;; cell_train.

(** The run up to the end of the first [k] epochs of the loop. *)
Definition after_epochs (k : nat) : M E unit :=
  cell_optimizer ;; cell_train_init ;; for_each (range k) epoch_body.

End Cells.

Arguments train_optimizer {E} _.
Arguments cell_optimizer {E} _.
Arguments train_scheduler_step {E} _.
Arguments cell_train_init {E} _ _.
Arguments epoch_body {E} _ _ _ _ _.
Arguments cell_train_finish {E} _ _.
Arguments cell_train {E} _ _ _ _.
Arguments notebook {E} _ _ _ _.
Arguments after_epochs {E} _ _ _ _ _.

(** ** The two passes of FSLMethods *)

Module FSLMethods.
Section Passes.

Variable E : Type.

(** One draw of the task sampler: the sample indices of an episode,
    [n_way * (n_shot + n_query)] of them. *)
Variable sample_task : TaskSampler -> E -> list nat * E.

(** Forward pass, cross-entropy loss, backward pass and optimizer step on
    one episode; yields the episode's loss, or raises. *)
Variable fit :
  nn_module -> SGD -> loss_fn -> list nat ->
  gmap loc tensor -> E -> result Q * gmap loc tensor * E.

(** Classification of one episode's query set: actual and predicted
    labels, unless it raises. *)
Variable predict :
  nn_module -> list nat ->
  gmap loc tensor -> E -> result (list nat * list nat) * gmap loc tensor * E.

(** The five scalar metrics derived from actual and predicted labels; the
    notebook keeps the third (recall) and the fifth (F1). *)
Variable metrics : list nat -> list nat -> Q * Q * Q * Q * Q.

Definition total (xs : list Q) : Q := foldr Qplus 0 xs.

Definition mean (xs : list Q) : Q :=
  total xs / inject_Z (Z.of_nat (length xs)).

(** Modelled from the spec: the loop of [training_epoch] over its loader.
    Iterating a loader built on a task sampler yields [n_tasks] episodes,
    each drawn when the iteration reaches it; every episode is fitted and
    its loss kept.  An episode that raises ends the pass. *)
Fixpoint train_episodes (n : nat) (model : nn_module) (loader : DataLoader)
    (optimizer : SGD) (criterion : loss_fn) (m : machine E)
    : result (list Q) * machine E :=
  match n with
  | O => (Ok [], m)
  | S n' =>
      let (task, e1) := sample_task (batch_sampler loader) (ext m) in
      let '(r, h2, e2) :=
        fit model optimizer criterion task (tensors m) e1 in
      let m2 := {| tensors := h2; ext := e2;
                   episodes := episodes m ++ [Episode Train task] |} in
      match r with
      | Ok loss =>
          match train_episodes n' model loader optimizer criterion m2 with
          | (Ok losses, m3) => (Ok (loss :: losses), m3)
          | (Raised e, m3) => (Raised e, m3)
          end
      | Raised e => (Raised e, m2)
      end
  end.

(** Modelled from the spec: [training_epoch] of the module FSLMethods,
    which the notebook imports and whose source is not part of the
    repository's sources: "run one training pass over N_TASKS_PER_EPOCH
    sampled episodes (forward pass, cross-entropy loss, backward pass,
    optimizer step), producing a mean loss". *)
Definition training_epoch (model : nn_module) (loader : DataLoader)
    (optimizer : SGD) (criterion : loss_fn) : lib E Q :=
  fun m =>
    match train_episodes (n_tasks (batch_sampler loader))
                         model loader optimizer criterion m with
    | (Ok losses, m') => (Ok (mean losses), m')
    | (Raised e, m') => (Raised e, m')
    end.

(** Modelled from the spec: the loop of [evaluate_model] over its loader;
    the labels and predictions of the episodes are collected in order.  An
    episode that raises ends the pass. *)
Fixpoint validate_episodes (n : nat) (model : nn_module)
    (loader : DataLoader) (m : machine E)
    : result (list (list nat * list nat)) * machine E :=
  match n with
  | O => (Ok [], m)
  | S n' =>
      let (task, e1) := sample_task (batch_sampler loader) (ext m) in
      let '(r, h2, e2) := predict model task (tensors m) e1 in
      let m2 := {| tensors := h2; ext := e2;
                   episodes := episodes m ++ [Episode Validation task] |} in
      match r with
      | Ok labels =>
          match validate_episodes n' model loader m2 with
          | (Ok rest, m3) => (Ok (labels :: rest), m3)
          | (Raised e, m3) => (Raised e, m3)
          end
      | Raised e => (Raised e, m2)
      end
  end.

(** Modelled from the spec: [evaluate_model] of the module FSLMethods,
    which the notebook imports and whose source is not part of the
    repository's sources: "run a validation pass over N_VALIDATION_TASKS
    episodes producing predictions and derived recall/F1". *)
Definition evaluate_model (model : nn_module) (loader : DataLoader)
    : lib E (list nat * list nat * Q * Q * Q * Q * Q) :=
  fun m =>
    match validate_episodes (n_tasks (batch_sampler loader)) model loader m
    with
    | (Ok labels, m') =>
        let actuals := concat (map fst labels) in
        let predictions := concat (map snd labels) in
        let '(m3, m4, recall, m6, f1_score) := metrics actuals predictions in
        (Ok (actuals, predictions, m3, m4, recall, m6, f1_score), m')
    | (Raised e, m') => (Raised e, m')
    end.



End Passes.
End FSLMethods.

(** ** A small concrete session

    One parameter tensor ["backbone.weight"], a training pass that moves it
    by one at every epoch, and a validation pass whose metrics are read off
    the current parameter: used to run the cells. *)

Module Session.

Definition weight : loc := 1%positive.

Definition model : nn_module :=
  {| parameters := {[ "backbone.weight" := weight ]} |}.

(** The optimizer step: every entry of the parameter moves by one, in
    place. *)
Definition training_epoch (m : nn_module) (loader : DataLoader)
    (optimizer : SGD) (criterion : loss_fn) : lib unit Q :=
  fun mc =>
    (Ok (1 # 2),
     set_tensors (alter (map (fun x => x + 1)) weight (tensors mc)) mc).

Definition first_entry (h : gmap loc tensor) : Q :=
  match h !! weight with
  | Some (x :: _) => x
  | _ => 0
  end.

(** Recall peaks after the second training pass and is lower afterwards;
    F1 keeps growing for five epochs. *)
Definition peaked (m : nn_module) (loader : DataLoader)
    : lib unit (list nat * list nat * Q * Q * Q * Q * Q) :=
  fun mc =>
    let x := first_entry (tensors mc) in
    let recall := if Qeq_bool x 2 then 3 # 4 else 1 # 4 in
    let f1 := if Qgtb x 5 then 1 # 2 else x / 10 in
    (Ok ([], [], 0, 0, recall, 0, f1), mc).

(** Recall is 0 at every epoch. *)
Definition flat (m : nn_module) (loader : DataLoader)
    : lib unit (list nat * list nat * Q * Q * Q * Q * Q) :=
  fun mc => (Ok ([], [], 0, 0, 0, 0, 1 # 3), mc).

(** A training pass that raises in the epoch in which the parameter reaches
    3, after it has already written to it. *)
Definition failing_training_epoch (m : nn_module) (loader : DataLoader)
    (optimizer : SGD) (criterion : loss_fn) : lib unit Q :=
  fun mc =>
    let mc' :=
      set_tensors (alter (map (fun x => x + 1)) weight (tensors mc)) mc in
    if Qeq_bool (first_entry (tensors mc')) 3
    then (Raised (Exception "RuntimeError" "size mismatch"), mc')
    else (Ok (1 # 2), mc').

Definition machine0 : machine unit :=
  {| tensors := {[ weight := [0] ]}; ext := tt; episodes := [] |}.

Definition world0 : world unit :=
  {| mach := machine0; next_oid := 0; lr := 0; last_epoch := 0;
     best_state := {| oid := 0; items := ∅ |};
     best_f1_score := 0; best_recall := 0; out := [] |}.

(** A store in which location 2 holds a frozen copy of an earlier weight. *)
Definition checkpointed : world unit :=
  {| mach := {| tensors := {[ weight := [5]; 2%positive := [7] ]};
                ext := tt; episodes := [] |};
     next_oid := 1; lr := 0; last_epoch := 0;
     best_state := {| oid := 0; items := {[ "backbone.weight" := 2%positive ]} |};
     best_f1_score := 0; best_recall := 0; out := [] |}.

End Session.

(** ** Reading the trace *)

(** The library calls of a trace, in order. *)
Definition calls (tr : list event) : list call :=
  omap (fun e => match e with Enter c => Some c | _ => None end) tr.

(** The values logged under a tensorboard tag, in order. *)
Definition scalars (tag : string) (tr : list event) : list Q :=
  omap (fun e =>
          match e with
          | AddScalar t v _ => if String.eqb t tag then Some v else None
          | _ => None
          end) tr.

(** How often the trace announces a new best model. *)
Definition new_best_lines (tr : list event) : nat :=
  length (omap (fun e => match e with
                         | Printed NewBestLine => Some tt
                         | _ => None
                         end) tr).

(** The calls one epoch makes. *)
Definition epoch_calls : list call :=
  [training_epoch_call train_loader;
   evaluate_model_call validation_loader;
   scheduler_step_call].

(** [x] is the greatest element of [l]. *)
Definition greatest (x : Q) (l : list Q) : Prop :=
  In x l /\ Forall (fun y => y <= x) l.

(** The rate the schedule prescribes once the counter has reached [k]. *)
Definition scheduled_lr (k : nat) : Q :=
  if (k <? 70)%nat then 1 # 1000
  else if (k <? 85)%nat then 1 # 10000
  else 1 # 100000.

(** What one completed epoch does to the world, given the loss of its
    training pass and the recall and F1 of its validation pass. *)
Definition epoch_effect {E : Type} (model : nn_module) (epoch : nat)
    (w w' : world E) (loss recall f1 : Q) : Prop :=
  best_f1_score w' = (if Qgtb f1 (best_f1_score w)
                      then f1 else best_f1_score w) /\
  best_recall w' = (if Qgtb recall (best_recall w)
                    then recall else best_recall w) /\
  best_state w' = (if Qgtb recall (best_recall w)
                   then {| oid := next_oid w; items := parameters model |}
                   else best_state w) /\
  next_oid w' = (if Qgtb recall (best_recall w)
                 then S (next_oid w) else next_oid w) /\
  last_epoch w' = (last_epoch w + 1)%Z /\
  lr w' = MultiStepLR_get_lr scheduler_milestones scheduler_gamma
            (last_epoch w + 1) (lr w) /\
  out w' = out w ++
           [Printed (EpochLine epoch);
            Enter (training_epoch_call train_loader);
            Enter (evaluate_model_call validation_loader)] ++
           (if Qgtb recall (best_recall w) then [Printed NewBestLine] else []) ++
           [AddScalar "Train/loss" loss epoch;
            AddScalar "F1" f1 epoch;
            AddScalar "Recall" recall epoch;
            Enter scheduler_step_call].



Module SessionRuns.
Import Session.

(** The world after [k] epochs, with the peaked validation metrics. *)
Definition peaked_after (k : nat) : world unit :=
  (after_epochs model training_epoch peaked k world0).2.

(** The world at the end of the notebook, with the peaked validation
    metrics and with recall 0 throughout. *)
Definition peaked_end : world unit :=
  (notebook model training_epoch peaked world0).2.
Definition flat_end : world unit :=
  (notebook model training_epoch flat world0).2.

(** The world after two epochs when the third training pass will raise. *)
Definition failing_after_2 : world unit :=
  (after_epochs model failing_training_epoch peaked 2 world0).2.

End SessionRuns.

(** ** Reading the trace, continued *)

(** The steps under which a tag was logged, in order. *)
Definition scalar_steps (tag : string) (tr : list event) : list nat :=
  omap (fun e =>
          match e with
          | AddScalar t _ step => if String.eqb t tag then Some step else None
          | _ => None
          end) tr.

(** The epochs announced on the console, in order. *)
Definition epoch_lines (tr : list event) : list nat :=
  omap (fun e =>
          match e with
          | Printed (EpochLine epoch) => Some epoch
          | _ => None
          end) tr.

(** The value left in a best-metric variable that starts at [best] and is
    offered the values of [l] in turn, each taken only when strictly
    greater. *)
Definition running_best (best : Q) (l : list Q) : Q :=
  foldl (fun b r => if Qgtb r b then r else b) best l.

(** How many values of [l] are strictly above [best] and above every value
    before them. *)
Fixpoint records (best : Q) (l : list Q) : nat :=
  match l with
  | [] => O
  | r :: l' => if Qgtb r best then S (records r l') else records best l'
  end.

(** The training cell up to the end of its first [k] epochs, from whatever
    world the cell is started in. *)
Definition train_epochs {E : Type} (model : nn_module)
    (training_epoch : nn_module -> DataLoader -> SGD -> loss_fn -> lib E Q)
    (evaluate_model :
       nn_module -> DataLoader ->
       lib E (list nat * list nat * Q * Q * Q * Q * Q))
    (k : nat) : M E unit :=
  cell_train_init model ;;
  for_each (range k) (epoch_body model training_epoch evaluate_model).

(** The optimizer as the training pass of epoch [k] finds it in a run that
    starts with the optimizer cell. *)
Definition scheduled_optimizer (k : nat) : SGD :=
  {| sgd_lr := scheduled_lr k; sgd_momentum := MOMENTUM;
     sgd_weight_decay := DECAY |}.

(** The two passes of [k] epochs applied to a machine, one after the other,
    with nothing in between; [None] when one of them raises. *)
Fixpoint passes_only {E : Type} (model : nn_module)
    (training_epoch : nn_module -> DataLoader -> SGD -> loss_fn -> lib E Q)
    (evaluate_model :
       nn_module -> DataLoader ->
       lib E (list nat * list nat * Q * Q * Q * Q * Q))
    (k : nat) (m : machine E) : option (machine E) :=
  match k with
  | O => Some m
  | S k' =>
      match passes_only model training_epoch evaluate_model k' m with
      | Some mk =>
          match training_epoch model train_loader
                  (scheduled_optimizer k') LOSS_FN mk with
          | (Ok _, m1) =>
              match evaluate_model model validation_loader m1 with
              | (Ok _, m2) => Some m2
              | (Raised _, _) => None
              end
          | (Raised _, _) => None
          end
      | None => None
      end
  end.

Module SessionReruns.
Import Session.

(** The world in which the notebook with the failing training pass stops. *)
Definition failing_end : world unit :=
  (notebook model failing_training_epoch peaked world0).2.

(** The world after the notebook has run and the training cell has been
    run a second time. *)
Definition peaked_rerun_end : world unit :=
  (cell_train model training_epoch peaked
     (notebook model training_epoch peaked world0).2).2.

(** The world after [k] epochs with recall 0 throughout. *)
Definition flat_after (k : nat) : world unit :=
  (after_epochs model training_epoch flat k world0).2.

End SessionReruns.

Module SessionPasses.
Import Session.

(** The sampler hands out the samples 0 and 1 as every episode; the state
    of the collaborators is the number of episodes drawn so far. *)
Definition sample_task (sampler : TaskSampler) (drawn : nat)
    : list nat * nat :=
  ([0; 1]%nat, S drawn).

(** Fitting an episode moves the weight by the optimizer's rate and has
    loss 1/2; it raises on an episode with no samples. *)
Definition fit (m : nn_module) (optimizer : SGD) (criterion : loss_fn)
    (task : list nat) (h : gmap loc tensor) (drawn : nat)
    : result Q * gmap loc tensor * nat :=
  match task with
  | [] => (Raised (Exception "ValueError" "empty episode"), h, drawn)
  | _ :: _ =>
      (Ok (1 # 2),
       alter (map (fun x => Qred (x + sgd_lr optimizer))) weight h, drawn)
  end.

(** Every episode has the labels 1, 0 and is classified as 1, 1. *)
Definition predict (m : nn_module) (task : list nat)
    (h : gmap loc tensor) (drawn : nat)
    : result (list nat * list nat) * gmap loc tensor * nat :=
  (Ok ([1; 0]%nat, [1; 1]%nat), h, drawn).

(** Recall and F1 are stood for by the share of predictions that are
    right. *)
Definition metrics (actuals predictions : list nat) : Q * Q * Q * Q * Q :=
  let right :=
    length (List.filter (fun ap => Nat.eqb ap.1 ap.2)
                        (zip actuals predictions)) in
  let share := inject_Z (Z.of_nat right) / inject_Z (Z.of_nat (length actuals)) in
  (0, 0, share, 0, share).

Definition machine0 : machine nat :=
  {| tensors := {[ weight := [0] ]}; ext := O; episodes := [] |}.

Definition world0 : world nat :=
  {| mach := machine0; next_oid := 0; lr := 0; last_epoch := 0;
     best_state := {| oid := 0; items := ∅ |};
     best_f1_score := 0; best_recall := 0; out := [] |}.

End SessionPasses.

(** * Properties *)

(** ** Statements *)

Section Statements.

Context {E : Type}.

Lemma bind_Ok {A B} (m : M E A) (k : A -> M E B) w b w' :
  bind m k w = (Ok b, w') <->
  exists a w1, m w = (Ok a, w1) /\ k a w1 = (Ok b, w').
Proof.
  unfold bind. destruct (m w) as [[a|e] w1]; split.
  - intros H. exists a, w1. split; [reflexivity | exact H].
  - intros (a' & w1' & Hm & Hk). inversion Hm; subst. exact Hk.
  - intros H. discriminate H.
  - intros (a' & w1' & Hm & _). discriminate Hm.
Qed.

Lemma bind_Raised_l {A B} (m : M E A) (k : A -> M E B) w e w' :
  m w = (Raised e, w') -> bind m k w = (Raised e, w').
Proof. intros H. unfold bind. rewrite H. reflexivity. Qed.

Lemma bind_Ok_l {A B} (m : M E A) (k : A -> M E B) w a w1 :
  m w = (Ok a, w1) -> bind m k w = k a w1.
Proof. intros H. unfold bind. rewrite H. reflexivity. Qed.

Lemma bind_assoc {A B C} (m : M E A) (k : A -> M E B) (h : B -> M E C) w :
  bind (bind m k) h w = bind m (fun a => bind (k a) h) w.
Proof.
  unfold bind. destruct (m w) as [[a|e] w1]; [|reflexivity].
  destruct (k a w1) as [[b|e] w2]; reflexivity.
Qed.

Lemma for_each_app {X} (xs ys : list X) (body : X -> M E unit) w :
  for_each (xs ++ ys) body w =
  bind (for_each xs body) (fun _ => for_each ys body) w.
Proof.
  revert w. induction xs as [|x xs IH]; intros w; simpl.
  - reflexivity.
  - rewrite bind_assoc.
    destruct (body x w) as [[[]|e] w1] eqn:Hx.
    + rewrite !(bind_Ok_l _ _ _ _ _ Hx). apply IH.
    + rewrite !(bind_Raised_l _ _ _ _ _ Hx). reflexivity.
Qed.

Lemma range_S k : range (S k) = range k ++ [k].
Proof. unfold range. rewrite seq_S. reflexivity. Qed.

Lemma for_each_range_S (body : nat -> M E unit) k w :
  for_each (range (S k)) body w =
  bind (for_each (range k) body) (fun _ => body k) w.
Proof.
  rewrite range_S, for_each_app. unfold bind.
  destruct (for_each (range k) body w) as [[[]|e] w1]; [|reflexivity].
  simpl. unfold bind. destruct (body k w1) as [[[]|e] w2]; reflexivity.
Qed.

(** Once the body raises, the loop is over: the remaining iterations do not
    run. *)
Lemma for_each_raises (body : nat -> M E unit) k n w wk e w' :
  (k < n)%nat ->
  for_each (range k) body w = (Ok tt, wk) ->
  body k wk = (Raised e, w') ->
  for_each (range n) body w = (Raised e, w').
Proof.
  intros Hlt Hk Hb. unfold range in *.
  replace n with (k + S (n - S k))%nat by lia.
  rewrite seq_app, for_each_app. rewrite (bind_Ok_l _ _ _ _ _ Hk).
  simpl. apply bind_Raised_l. exact Hb.
Qed.

End Statements.

(** ** One epoch *)

Section Epoch.

Context {E : Type}.
Variable model : nn_module.
Variable training_epoch :
  nn_module -> DataLoader -> SGD -> loss_fn -> lib E Q.
Variable evaluate_model :
  nn_module -> DataLoader -> lib E (list nat * list nat * Q * Q * Q * Q * Q).

Local Abbreviation body := (epoch_body model training_epoch evaluate_model).

Lemma epoch_body_Ok epoch w w' :
  body epoch w = (Ok tt, w') ->
  exists loss m1 actuals predictions x3 x4 recall x6 f1,
    training_epoch model train_loader (train_optimizer w) LOSS_FN (mach w)
      = (Ok loss, m1) /\
    evaluate_model model validation_loader m1
      = (Ok (actuals, predictions, x3, x4, recall, x6, f1), mach w') /\
    epoch_effect model epoch w w' loss recall f1.
Proof.
  intros H.
  unfold epoch_body, bind, print, add_scalar, train_scheduler_step,
    call_lib, gets, modify, when, state_dict, ret, bind in H.
  cbn in H.
  destruct (training_epoch _ _ _ _ _) as [[loss|e] m1] eqn:Ht;
    [|discriminate H].
  cbn in H.
  destruct (evaluate_model _ _ _) as [[ev|e] m2] eqn:Hv;
    [|discriminate H].
  destruct ev as [[[[[[actuals predictions] x3] x4] recall] x6] f1].
  cbn in H.
  exists loss, m1, actuals, predictions, x3, x4, recall, x6, f1.
  unfold epoch_effect.
  destruct (Qgtb f1 (best_f1_score w)); cbn in H;
    destruct (Qgtb recall (best_recall w)); cbn in H;
    inversion H; subst; cbn; rewrite <- ?app_assoc; cbn; auto 12.
Qed.

(** The epoch raises exactly where one of its two passes raises, with the
    world as that pass left it. *)
Lemma epoch_body_training_raises epoch w e m' :
  training_epoch model train_loader (train_optimizer w) LOSS_FN (mach w)
    = (Raised e, m') ->
  body epoch w =
    (Raised e,
     set_mach m' (emit (Enter (training_epoch_call train_loader))
                       (emit (Printed (EpochLine epoch)) w))).
Proof.
  intros Ht.
  unfold epoch_body, bind, print, call_lib, gets, modify, train_optimizer in *.
  cbn in *. rewrite Ht. reflexivity.
Qed.

Lemma epoch_body_validation_raises epoch w loss m1 e m' :
  training_epoch model train_loader (train_optimizer w) LOSS_FN (mach w)
    = (Ok loss, m1) ->
  evaluate_model model validation_loader m1 = (Raised e, m') ->
  body epoch w =
    (Raised e,
     set_mach m'
       (emit (Enter (evaluate_model_call validation_loader))
          (set_mach m1
             (emit (Enter (training_epoch_call train_loader))
                   (emit (Printed (EpochLine epoch)) w))))).
Proof.
  intros Ht Hv.
  unfold epoch_body, bind, print, call_lib, gets, modify, train_optimizer in *.
  cbn in *. rewrite Ht. cbn. rewrite Hv. reflexivity.
Qed.

(** An epoch whose two passes complete completes. *)
Lemma epoch_body_completes epoch w loss m1 ev m2 :
  training_epoch model train_loader (train_optimizer w) LOSS_FN (mach w)
    = (Ok loss, m1) ->
  evaluate_model model validation_loader m1 = (Ok ev, m2) ->
  exists w', body epoch w = (Ok tt, w') /\ mach w' = m2.
Proof.
  intros Ht Hv.
  destruct ev as [[[[[[actuals predictions] x3] x4] recall] x6] f1].
  unfold epoch_body, bind, print, add_scalar, train_scheduler_step,
    call_lib, gets, modify, when, state_dict, ret, bind, train_optimizer in *.
  cbn in *. rewrite Ht. cbn. rewrite Hv. cbn.
  destruct (Qgtb f1 (best_f1_score w)); cbn;
    destruct (Qgtb recall (best_recall w)); cbn;
    eexists; split; reflexivity.
Qed.

End Epoch.

(** ** Comparisons and the schedule *)

Lemma Qgtb_true x y : Qgtb x y = true <-> y < x.
Proof.
  unfold Qgtb. split.
  - intros H. apply Qgt_alt. destruct (x ?= y); congruence.
  - intros H. apply Qgt_alt in H. rewrite H. reflexivity.
Qed.

Lemma Qgtb_false x y : Qgtb x y = false <-> x <= y.
Proof.
  split.
  - intros H. apply Qnot_lt_le. intros Hlt.
    apply Qgtb_true in Hlt. congruence.
  - intros H. destruct (Qgtb x y) eqn:Hb; [|reflexivity].
    apply Qgtb_true in Hb. exfalso. exact (Qlt_not_le _ _ Hb H).
Qed.

Lemma greatest_keep x y l :
  greatest x l -> y <= x -> greatest x (l ++ [y]).
Proof.
  intros [Hin Hall] Hle. split.
  - apply in_or_app. left. exact Hin.
  - apply Forall_app. split; [exact Hall|].
    apply Forall_cons. split; [exact Hle | apply Forall_nil_2].
Qed.

Lemma greatest_replace x y l :
  greatest x l -> x < y -> greatest y (l ++ [y]).
Proof.
  intros [Hin Hall] Hlt. split.
  - apply in_or_app. right. left. reflexivity.
  - apply Forall_app. split.
    + eapply Forall_impl; [exact Hall|]. intros z Hz. cbn in Hz.
      eapply Qle_trans; [exact Hz | apply Qlt_le_weak; exact Hlt].
    + apply Forall_cons. split; [apply Qle_refl | apply Forall_nil_2].
Qed.

(** The step that moves the counter to [S k] turns the rate prescribed for
    [k] into the rate prescribed for [S k]. *)
Lemma scheduled_lr_step k :
  MultiStepLR_get_lr scheduler_milestones scheduler_gamma
    (Z.of_nat k + 1) (scheduled_lr k) = scheduled_lr (S k).
Proof.
  unfold MultiStepLR_get_lr, scheduler_milestones. cbn [count_occ].
  destruct (Z.eq_dec 70%Z (Z.of_nat k + 1)%Z) as [H70|H70].
  - assert (k = 69%nat) by lia. subst k. reflexivity.
  - destruct (Z.eq_dec 85%Z (Z.of_nat k + 1)%Z) as [H85|H85].
    + assert (k = 84%nat) by lia. subst k. reflexivity.
    + unfold scheduled_lr.
      destruct (Nat.ltb_spec k 70), (Nat.ltb_spec (S k) 70),
        (Nat.ltb_spec k 85), (Nat.ltb_spec (S k) 85);
        try reflexivity; lia.
Qed.

(** A step changes the rate only when the counter reaches a milestone. *)
Lemma scheduled_lr_change k :
  scheduled_lr (S k) =
  if bool_decide (S k = 70 \/ S k = 85)%nat
  then scheduled_lr k * scheduler_gamma
  else scheduled_lr k.
Proof.
  case_bool_decide as Hk.
  - destruct Hk as [Hk|Hk]; injection Hk as ->; reflexivity.
  - unfold scheduled_lr.
    destruct (Nat.ltb_spec k 70), (Nat.ltb_spec (S k) 70),
      (Nat.ltb_spec k 85), (Nat.ltb_spec (S k) 85);
      try reflexivity; lia.
Qed.

Lemma calls_app tr1 tr2 : calls (tr1 ++ tr2) = calls tr1 ++ calls tr2.
Proof. apply omap_app. Qed.

Lemma scalars_app tag tr1 tr2 :
  scalars tag (tr1 ++ tr2) = scalars tag tr1 ++ scalars tag tr2.
Proof. apply omap_app. Qed.

Lemma repeat_snoc {A} (x : A) n : repeat x (S n) = repeat x n ++ [x].
Proof. induction n as [|n IH]; [reflexivity|]. cbn. f_equal. exact IH. Qed.

(** ** Loading a state dict *)

Section Loading.

Context {E : Type}.

Lemma copy_self l (h : gmap loc tensor) : copy_ l l h = h.
Proof.
  unfold copy_. destruct (h !! l) as [v|] eqn:Hl; [|reflexivity].
  apply insert_id. exact Hl.
Qed.

Lemma same_shape_self l (h : gmap loc tensor) : same_shape h l l = true.
Proof.
  unfold same_shape. destruct (h !! l) as [v|]; [|reflexivity].
  apply Nat.eqb_refl.
Qed.

(** Loading entries that the dictionary maps to the parameter's own tensor
    writes every storage onto itself. *)
Lemma load_own_entries (d : gmap string loc) h errs (l : list (string * loc)) :
  Forall (fun kl => d !! kl.1 = Some kl.2) l ->
  foldl (load_entry d) (h, errs) l = (h, errs).
Proof.
  induction 1 as [|[k a] l Hk _ IH]; [reflexivity|].
  cbn in *. unfold load_entry at 2. cbn. rewrite Hk.
  rewrite same_shape_self, copy_self. exact IH.
Qed.

(** Loading a dictionary whose values are the module's own tensors
    completes and leaves the machine as it was. *)
Lemma load_state_dict_own (m : nn_module) (d : OrderedDict) (w : world E) :
  items d = parameters m ->
  load_state_dict m d w =
    (Ok ([], []), emit (Enter (load_state_dict_call d)) w).
Proof.
  intros Hd. unfold load_state_dict. cbn. rewrite Hd.
  rewrite load_own_entries.
  - rewrite difference_diag_L, elements_empty. destruct w as [[h x ep] ? ? ? ? ? ? ?].
    reflexivity.
  - apply Forall_forall. intros [k a] Hin. cbn.
    apply elem_of_map_to_list. exact Hin.
Qed.

End Loading.

(** ** The run *)

Section Run.

Context {E : Type}.
Variable model : nn_module.
Variable training_epoch :
  nn_module -> DataLoader -> SGD -> loss_fn -> lib E Q.
Variable evaluate_model :
  nn_module -> DataLoader -> lib E (list nat * list nat * Q * Q * Q * Q * Q).

Local Abbreviation body := (epoch_body model training_epoch evaluate_model).
Local Abbreviation after :=
  (after_epochs model training_epoch evaluate_model).
Local Abbreviation run := (notebook model training_epoch evaluate_model).

(** Before the first epoch: the rate is [LEARNING_RATE], the counter is 0,
    both best metrics are 0.0 and [best_state] is a dictionary over the
    module's own tensors. *)
Lemma after_epochs_0 w0 :
  after 0 w0 =
    (Ok tt,
     set_best_recall 0
       (set_best_f1_score 0
          (set_best_state {| oid := next_oid w0; items := parameters model |}
             (set_next_oid (S (next_oid w0))
                (set_schedule 0 LEARNING_RATE w0))))).
Proof. reflexivity. Qed.

Lemma after_epochs_S k w0 :
  after (S k) w0 = bind (after k) (fun _ => body k) w0.
Proof.
  unfold after_epochs.
  rewrite !bind_assoc.
  destruct (cell_optimizer w0) as [[[]|e] w1] eqn:H1.
  - rewrite !(bind_Ok_l _ _ _ _ _ H1). rewrite !bind_assoc.
    destruct (cell_train_init model w1) as [[[]|e] w2] eqn:H2.
    + rewrite !(bind_Ok_l _ _ _ _ _ H2). apply for_each_range_S.
    + rewrite !(bind_Raised_l _ _ _ _ _ H2). reflexivity.
  - rewrite !(bind_Raised_l _ _ _ _ _ H1). reflexivity.
Qed.

Lemma after_epochs_S_Ok k w0 w' :
  after (S k) w0 = (Ok tt, w') ->
  exists wk, after k w0 = (Ok tt, wk) /\ body k wk = (Ok tt, w').
Proof.
  rewrite after_epochs_S. intros H. apply bind_Ok in H.
  destruct H as ([] & wk & Hk & Hb). exists wk. split; assumption.
Qed.


(** The whole notebook is the loop followed by the closing statements. *)
Lemma notebook_split w0 :
  run w0 = bind (after N_EPOCHS) (fun _ => cell_train_finish model) w0.
Proof.
  unfold notebook, cell_train, after_epochs.
  rewrite !bind_assoc.
  destruct (cell_optimizer w0) as [[[]|e] w1] eqn:H1.
  - rewrite !(bind_Ok_l _ _ _ _ _ H1). rewrite !bind_assoc.
    destruct (cell_train_init model w1) as [[[]|e] w2] eqn:H2.
    + rewrite !(bind_Ok_l _ _ _ _ _ H2). reflexivity.
    + rewrite !(bind_Raised_l _ _ _ _ _ H2). reflexivity.
  - rewrite !(bind_Raised_l _ _ _ _ _ H1). reflexivity.
Qed.


(** Once an epoch raises, so does every longer run. *)
Lemma after_epochs_raises k n w0 wk e w' :
  (k < n)%nat ->
  after k w0 = (Ok tt, wk) ->
  body k wk = (Raised e, w') ->
  after n w0 = (Raised e, w').
Proof.
  intros Hlt Hk Hb. induction Hlt as [|n Hlt IH].
  - rewrite after_epochs_S, (bind_Ok_l _ _ _ _ _ Hk). exact Hb.
  - rewrite after_epochs_S. apply bind_Raised_l. exact IH.
Qed.

(** What holds after any number of completed epochs. *)
Lemma after_epochs_inv k w0 w :
  after k w0 = (Ok tt, w) ->
  items (best_state w) = parameters model /\
  (oid (best_state w) < next_oid w)%nat /\
  last_epoch w = Z.of_nat k /\
  lr w = scheduled_lr k /\
  exists tr,
    out w = out w0 ++ tr /\
    calls tr = concat (repeat epoch_calls k) /\
    length (scalars "Recall" tr) = k /\
    length (scalars "F1" tr) = k /\
    greatest (best_recall w) (0 :: scalars "Recall" tr) /\
    greatest (best_f1_score w) (0 :: scalars "F1" tr).
Proof.
  revert w. induction k as [|k IH]; intros w H.
  - rewrite after_epochs_0 in H. inversion H; subst; clear H. cbn.
    repeat split; try reflexivity; try lia.
    exists []. rewrite app_nil_r. cbn.
    repeat split; try reflexivity; try (left; reflexivity);
      apply Forall_cons; (split; [apply Qle_refl | apply Forall_nil_2]).
  - apply after_epochs_S_Ok in H. destruct H as (wk & Hk & Hb).
    destruct (IH wk Hk)
      as (Hitems & Hfresh & Hep & Hlr & tr & Hout & Hcalls & Hnr & Hnf & Hr & Hf).
    apply epoch_body_Ok in Hb.
    destruct Hb as (loss & m1 & a & p & x3 & x4 & recall & x6 & f1 &
                    _ & _ & Hbf & Hbr & Hbs & Hno & Hle & Hlr' & Hout').
    repeat split.
    + rewrite Hbs. destruct (Qgtb recall (best_recall wk)); [reflexivity|].
      exact Hitems.
    + rewrite Hbs, Hno.
      destruct (Qgtb recall (best_recall wk)); cbn; lia.
    + rewrite Hle, Hep. lia.
    + rewrite Hlr', Hep, Hlr. apply scheduled_lr_step.
    + set (seg := [Printed (EpochLine k);
                   Enter (training_epoch_call train_loader);
                   Enter (evaluate_model_call validation_loader)] ++
                  (if Qgtb recall (best_recall wk)
                   then [Printed NewBestLine] else []) ++
                  [AddScalar "Train/loss" loss k; AddScalar "F1" f1 k;
                   AddScalar "Recall" recall k; Enter scheduler_step_call])
        in *.
      assert (Hc : calls seg = epoch_calls)
        by (subst seg; destruct (Qgtb recall (best_recall wk)); reflexivity).
      assert (Hsr : scalars "Recall" seg = [recall])
        by (subst seg; destruct (Qgtb recall (best_recall wk)); reflexivity).
      assert (Hsf : scalars "F1" seg = [f1])
        by (subst seg; destruct (Qgtb recall (best_recall wk)); reflexivity).
      exists (tr ++ seg).
      rewrite calls_app, !scalars_app, Hc, Hsr, Hsf, !length_app, Hnr, Hnf.
      split; [rewrite Hout', Hout, <- app_assoc; reflexivity|].
      split; [rewrite Hcalls, repeat_snoc, concat_app; cbn [concat];
              rewrite app_nil_r; reflexivity|].
      split; [cbn; lia|]. split; [cbn; lia|].
      rewrite Hbr, Hbf, !app_comm_cons. split.
      * destruct (Qgtb recall (best_recall wk)) eqn:Hgr.
        -- apply (greatest_replace (best_recall wk)); [exact Hr|].
           apply Qgtb_true. exact Hgr.
        -- apply greatest_keep; [exact Hr|]. apply Qgtb_false. exact Hgr.
      * destruct (Qgtb f1 (best_f1_score wk)) eqn:Hgf.
        -- apply (greatest_replace (best_f1_score wk)); [exact Hf|].
           apply Qgtb_true. exact Hgf.
        -- apply greatest_keep; [exact Hf|]. apply Qgtb_false. exact Hgf.
Qed.

(** While no recall logged so far is above 0.0, [best_recall] is still 0.0,
    [best_state] is still the dictionary built before the first epoch, and
    no new best has been announced: an epoch that only ties does not rebind
    it. *)
Lemma best_state_kept_without_improvement k w0 wk tr :
  after k w0 = (Ok tt, wk) ->
  out wk = out w0 ++ tr ->
  Forall (fun r => r <= 0) (scalars "Recall" tr) ->
  best_state wk = {| oid := next_oid w0; items := parameters model |} /\
  best_recall wk = 0 /\
  new_best_lines tr = 0%nat.
Proof.
  revert wk tr. induction k as [|k IH]; intros wk tr H Hout Hall.
  - rewrite after_epochs_0 in H. inversion H; subst; clear H. cbn in *.
    rewrite <- (app_nil_r (out w0)) in Hout at 1.
    apply app_inv_head in Hout. subst tr. auto.
  - apply after_epochs_S_Ok in H. destruct H as (wk0 & Hk & Hb).
    destruct (after_epochs_inv _ _ _ Hk) as (_ & _ & _ & _ & tr0 & Hout0 & _).
    apply epoch_body_Ok in Hb.
    destruct Hb as (loss & m1 & a & p & x3 & x4 & recall & x6 & f1 &
                    _ & _ & _ & Hbr & Hbs & _ & _ & _ & Hout').
    rewrite Hout', Hout0, <- app_assoc in Hout.
    apply app_inv_head in Hout. subst tr.
    rewrite scalars_app in Hall. apply Forall_app in Hall.
    destruct Hall as [Hall0 Hseg].
    destruct (IH wk0 tr0 Hk Hout0 Hall0) as (Hbs0 & Hbr0 & Hn0).
    assert (Hle : recall <= 0).
    { destruct (Qgtb recall (best_recall wk0)); cbn in Hseg;
        repeat (apply Forall_cons in Hseg; destruct Hseg as [? Hseg]);
        assumption. }
    rewrite Hbr0 in *. apply Qgtb_false in Hle. rewrite Hle in *.
    split; [rewrite Hbs; exact Hbs0|]. split; [exact Hbr|].
    unfold new_best_lines in *. rewrite omap_app, length_app, Hn0.
    reflexivity.
Qed.

End Run.

(** ** The training cell *)

Section Claims.

Context {E : Type}.
Variable model : nn_module.
Variable training_epoch :
  nn_module -> DataLoader -> SGD -> loss_fn -> lib E Q.
Variable evaluate_model :
  nn_module -> DataLoader -> lib E (list nat * list nat * Q * Q * Q * Q * Q).

Local Abbreviation body := (epoch_body model training_epoch evaluate_model).
Local Abbreviation after :=
  (after_epochs model training_epoch evaluate_model).
Local Abbreviation run := (notebook model training_epoch evaluate_model).



(** C4.  [best_state] never holds a copy: whenever it is read, the
    dictionary bound to it maps every name to the module's own tensor.  So
    the dictionary bound after [k] epochs, read after any later epoch [k'],
    shows the parameters as they are after [k']; and the closing
    [load_state_dict(best_state)] completes and leaves every tensor as the
    last epoch left it. *)
Theorem best_state_aliases_parameters w0 :
  (forall k k' wk wk',
     (k <= k')%nat ->
     after k w0 = (Ok tt, wk) -> after k' w0 = (Ok tt, wk') ->
     items (best_state wk) = parameters model /\
     deref (tensors (mach wk')) (items (best_state wk)) =
     deref (tensors (mach wk')) (parameters model)) /\
  (forall wl,
     after N_EPOCHS w0 = (Ok tt, wl) ->
     exists w', run w0 = (Ok tt, w') /\ mach w' = mach wl).
Proof.
  split.
  - intros k k' wk wk' _ Hk _.
    destruct (after_epochs_inv _ _ _ _ _ _ Hk) as (Hitems & _).
    rewrite Hitems. split; reflexivity.
  - intros wl Hl.
    destruct (after_epochs_inv _ _ _ _ _ _ Hl) as (Hitems & _).
    rewrite notebook_split, (bind_Ok_l _ _ _ _ _ Hl).
    unfold cell_train_finish, gets, print, modify.
    rewrite (bind_Ok_l _ _ wl (best_state wl) wl) by reflexivity.
    rewrite (bind_Ok_l _ _ _ _ _ (load_state_dict_own model _ wl Hitems)).
    cbn. eexists. split; reflexivity.
Qed.

(** C5.  The scheduler is stepped once per epoch, as the last call of the
    epoch, after the validation pass.  After [k] epochs its counter is [k]
    and the optimizer's rate, with which epoch [k] trains, is 0.001 below
    70, 0.0001 from 70 and 0.00001 from 85; the step that takes the counter
    to [S k] multiplies the rate by gamma when [S k] is 70 or 85 and leaves
    it as it is otherwise. *)
Theorem lr_drops_at_milestones k w0 wk :
  after k w0 = (Ok tt, wk) ->
  last_epoch wk = Z.of_nat k /\
  sgd_lr (train_optimizer wk) = scheduled_lr k /\
  (exists tr, out wk = out w0 ++ tr /\
              calls tr = concat (repeat epoch_calls k)) /\
  (forall wk', after (S k) w0 = (Ok tt, wk') ->
     lr wk' = if bool_decide (S k = 70 \/ S k = 85)%nat
              then lr wk * scheduler_gamma
              else lr wk).
Proof.
  intros Hk.
  destruct (after_epochs_inv _ _ _ _ _ _ Hk)
    as (_ & _ & Hep & Hlr & tr & Hout & Hcalls & _).
  split; [exact Hep|]. split; [exact Hlr|].
  split; [exists tr; split; assumption|].
  intros wk' HS.
  destruct (after_epochs_inv _ _ _ _ _ _ HS) as (_ & _ & _ & Hlr' & _).
  rewrite Hlr', Hlr. apply scheduled_lr_change.
Qed.

(** C8.  Nothing between the library and the top of the cell catches an
    exception: when the training pass or the validation pass of an epoch
    raises, the notebook stops with that exception.  The machine is left as
    the failing pass left it, the globals, the rate and the counter as they
    were when the epoch began, and the trace ends with the entry of the
    failing call: no second attempt, no [load_state_dict]. *)
Theorem exceptions_propagate k w0 wk e m' :
  (k < N_EPOCHS)%nat ->
  after k w0 = (Ok tt, wk) ->
  (training_epoch model train_loader (train_optimizer wk) LOSS_FN (mach wk)
     = (Raised e, m') \/
   exists loss m1,
     training_epoch model train_loader (train_optimizer wk) LOSS_FN (mach wk)
       = (Ok loss, m1) /\
     evaluate_model model validation_loader m1 = (Raised e, m')) ->
  exists w' cs,
    run w0 = (Raised e, w') /\
    mach w' = m' /\
    best_state w' = best_state wk /\
    best_recall w' = best_recall wk /\
    best_f1_score w' = best_f1_score wk /\
    lr w' = lr wk /\
    last_epoch w' = last_epoch wk /\
    out w' = out wk ++ Printed (EpochLine k) :: map Enter cs /\
    (cs = [training_epoch_call train_loader] \/
     cs = [training_epoch_call train_loader;
           evaluate_model_call validation_loader]).
Proof.
  intros Hlt Hk Hraise.
  assert (Hrun : forall w', body k wk = (Raised e, w') ->
                            run w0 = (Raised e, w')).
  { intros w' Hb. rewrite notebook_split. apply bind_Raised_l.
    eapply after_epochs_raises; eassumption. }
  destruct Hraise as [Ht | (loss & m1 & Ht & Hv)].
  - eexists. exists [training_epoch_call train_loader].
    split; [apply Hrun; apply epoch_body_training_raises; exact Ht|].
    cbn. rewrite <- app_assoc. repeat split; auto.
  - eexists. exists [training_epoch_call train_loader;
                     evaluate_model_call validation_loader].
    split; [apply Hrun; eapply epoch_body_validation_raises; eassumption|].
    cbn. rewrite <- !app_assoc. repeat split; auto.
Qed.


End Claims.

(** ** The passes *)

Section PassClaims.

Context {E : Type}.
Variable sample_task : TaskSampler -> E -> list nat * E.
Variable fit :
  nn_module -> SGD -> loss_fn -> list nat ->
  gmap loc tensor -> E -> result Q * gmap loc tensor * E.
Variable predict :
  nn_module -> list nat ->
  gmap loc tensor -> E -> result (list nat * list nat) * gmap loc tensor * E.
Variable metrics : list nat -> list nat -> Q * Q * Q * Q * Q.
Variable model : nn_module.

Local Abbreviation training_epoch :=
  (FSLMethods.training_epoch E sample_task fit).
Local Abbreviation evaluate_model :=
  (FSLMethods.evaluate_model E sample_task predict metrics).
Local Abbreviation after := (after_epochs model training_epoch evaluate_model).
Local Abbreviation run := (notebook model training_epoch evaluate_model).








End PassClaims.

(** ** The cells on the concrete session *)

Import Session SessionRuns.


Lemma best_state_aliases_parameters_witness :
  (2 <= 100)%nat /\
  after_epochs model training_epoch peaked 2 world0
    = (Ok tt, peaked_after 2) /\
  after_epochs model training_epoch peaked 100 world0
    = (Ok tt, peaked_after 100) /\
  deref (tensors (mach (peaked_after 100))) (items (best_state (peaked_after 2)))
  = deref (tensors (mach (peaked_after 100))) (parameters model) /\
  exists w', notebook model training_epoch peaked world0 = (Ok tt, w') /\
             mach w' = mach (peaked_after 100).
Proof.
  assert (H2 : after_epochs model training_epoch peaked 2 world0
               = (Ok tt, peaked_after 2)) by (vm_compute; reflexivity).
  assert (H100 : after_epochs model training_epoch peaked 100 world0
                 = (Ok tt, peaked_after 100)) by (vm_compute; reflexivity).
  assert (Hle : (2 <= 100)%nat) by lia.
  destruct (best_state_aliases_parameters
              model training_epoch peaked world0) as [Hread Hload].
  split; [exact Hle|]. split; [exact H2|]. split; [exact H100|].
  split.
  - exact (proj2 (Hread 2%nat 100%nat _ _ Hle H2 H100)).
  - exact (Hload _ H100).
Defined.

Lemma lr_drops_at_milestones_witness :
  after_epochs model training_epoch peaked 69 world0
    = (Ok tt, peaked_after 69) /\
  after_epochs model training_epoch peaked 70 world0
    = (Ok tt, peaked_after 70) /\
  sgd_lr (train_optimizer (peaked_after 69)) = 1 # 1000 /\
  lr (peaked_after 70) = lr (peaked_after 69) * scheduler_gamma.
Proof.
  assert (H : after_epochs model training_epoch peaked 69 world0
              = (Ok tt, peaked_after 69)) by (vm_compute; reflexivity).
  assert (H' : after_epochs model training_epoch peaked 70 world0
               = (Ok tt, peaked_after 70)) by (vm_compute; reflexivity).
  split; [exact H|]. split; [exact H'|].
  destruct (lr_drops_at_milestones model training_epoch peaked 69 world0 _ H)
    as (_ & Hlr & _ & Hstep).
  split; [exact Hlr|]. exact (Hstep _ H').
Defined.

Lemma exceptions_propagate_witness :
  (2 < N_EPOCHS)%nat /\
  after_epochs model failing_training_epoch peaked 2 world0
    = (Ok tt, failing_after_2) /\
  exists w',
    notebook model failing_training_epoch peaked world0
      = (Raised (Exception "RuntimeError" "size mismatch"), w') /\
    tensors (mach w') = {[ weight := [3] ]}.
Proof.
  assert (Hlt : (2 < N_EPOCHS)%nat) by (unfold N_EPOCHS; lia).
  assert (H : after_epochs model failing_training_epoch peaked 2 world0
              = (Ok tt, failing_after_2)) by (vm_compute; reflexivity).
  split; [exact Hlt|]. split; [exact H|].
  destruct (exceptions_propagate model failing_training_epoch peaked
              2 world0 failing_after_2
              (Exception "RuntimeError" "size mismatch")
              (set_tensors {[ weight := [3] ]} (mach failing_after_2))
              Hlt H)
    as (w' & _ & Hrun & Hm & _).
  - left. vm_compute. reflexivity.
  - exists w'. split; [exact Hrun|]. rewrite Hm. reflexivity.
Defined.



(** C2.  On the concrete session recall is highest in the second epoch,
    at the end of which the weight is 2, and [best_state] is bound then for
    the last time; yet read one epoch later the dictionary shows 3, and at
    the end of the loop it shows 100, the weight of the last epoch. *)
Theorem best_state_shows_last_epoch_not_best_epoch :
  after_epochs model training_epoch peaked 100 world0
    = (Ok tt, peaked_after 100) /\
  scalars "Recall" (out (peaked_after 100))
    = (1 # 4) :: (3 # 4) :: repeat (1 # 4) 98 /\
  best_recall (peaked_after 100) = 3 # 4 /\
  best_state (peaked_after 100) = best_state (peaked_after 2) /\
  deref (tensors (mach (peaked_after 2))) (parameters model)
    = {[ "backbone.weight" := [2] ]} /\
  deref (tensors (mach (peaked_after 3))) (items (best_state (peaked_after 3)))
    = {[ "backbone.weight" := [3] ]} /\
  deref (tensors (mach (peaked_after 100)))
        (items (best_state (peaked_after 100)))
    = {[ "backbone.weight" := [100] ]}.
Proof. repeat apply conj; vm_compute; reflexivity. Qed.

(** C3.  On the concrete session [best_state] is saved for the last time
    at the end of the second epoch, when the weight is 2.  The notebook runs
    to its end and calls [load_state_dict] once, after the 100 epochs, on
    that dictionary; yet the model it ends with has the weight 100 of the
    last epoch, not the weight 2 that was saved: the dictionary holds the
    live tensor, and loading it copies the tensor onto itself. *)
Theorem final_model_is_not_the_saved_snapshot :
  notebook model training_epoch peaked world0 = (Ok tt, peaked_end) /\
  calls (out peaked_end)
    = concat (repeat epoch_calls 100) ++
      [load_state_dict_call (best_state peaked_end)] /\
  oid (best_state (peaked_after 1)) = 1%nat /\
  oid (best_state (peaked_after 2)) = 2%nat /\
  best_state peaked_end = best_state (peaked_after 2) /\
  deref (tensors (mach (peaked_after 2)))
        (items (best_state (peaked_after 2)))
    = {[ "backbone.weight" := [2] ]} /\
  deref (tensors (mach (peaked_after 100))) (parameters model)
    = {[ "backbone.weight" := [100] ]} /\
  deref (tensors (mach peaked_end)) (parameters model)
    = {[ "backbone.weight" := [100] ]}.
Proof. repeat apply conj; vm_compute; reflexivity. Qed.

(** C10.  On the concrete session with recall 0 in every epoch,
    [best_state] is still the dictionary built before the first epoch and
    no new best is announced; but the model the notebook ends with has the
    weight of the last epoch, 100, not the initial weight 0. *)
Theorem no_improvement_keeps_last_epoch_parameters :
  notebook model training_epoch flat world0 = (Ok tt, flat_end) /\
  scalars "Recall" (out flat_end) = repeat 0 100 /\
  best_recall flat_end = 0 /\
  best_state flat_end = best_state (peaked_after 0) /\
  new_best_lines (out flat_end) = 0%nat /\
  deref (tensors (mach world0)) (parameters model)
    = {[ "backbone.weight" := [0] ]} /\
  deref (tensors (mach flat_end)) (parameters model)
    = {[ "backbone.weight" := [100] ]}.
Proof. repeat apply conj; vm_compute; reflexivity. Qed.

(** Loading a dictionary that holds a copy does overwrite the parameter;
    a dictionary without the parameter's name is refused. *)
Example load_state_dict_copies :
  let r := load_state_dict model (best_state checkpointed) checkpointed in
  r.1 = Ok ([], []) /\
  tensors (mach r.2) = {[ weight := [7]; 2%positive := [7] ]}.
Proof. repeat apply conj; vm_compute; reflexivity. Qed.

Example load_state_dict_strict :
  (load_state_dict model {| oid := 0; items := ∅ |} checkpointed).1
  = Raised (Exception "RuntimeError" "Error(s) in loading state_dict").
Proof. vm_compute. reflexivity. Qed.

(** * Further properties of the cells *)

(** ** Sequences of logged values *)

Lemma scalar_steps_app tag tr1 tr2 :
  scalar_steps tag (tr1 ++ tr2) = scalar_steps tag tr1 ++ scalar_steps tag tr2.
Proof. apply omap_app. Qed.

Lemma epoch_lines_app tr1 tr2 :
  epoch_lines (tr1 ++ tr2) = epoch_lines tr1 ++ epoch_lines tr2.
Proof. apply omap_app. Qed.

Lemma new_best_lines_app tr1 tr2 :
  new_best_lines (tr1 ++ tr2) = (new_best_lines tr1 + new_best_lines tr2)%nat.
Proof. unfold new_best_lines. rewrite omap_app, length_app. reflexivity. Qed.

Lemma running_best_snoc best l r :
  running_best best (l ++ [r]) =
  if Qgtb r (running_best best l) then r else running_best best l.
Proof. unfold running_best. rewrite foldl_snoc. reflexivity. Qed.

Lemma records_snoc best l r :
  records best (l ++ [r]) =
  (records best l + if Qgtb r (running_best best l) then 1 else 0)%nat.
Proof.
  revert best. induction l as [|x l IH]; intros best; cbn.
  - destruct (Qgtb r best); reflexivity.
  - destruct (Qgtb x best); rewrite IH; reflexivity.
Qed.

(** No value is a record exactly when none is above the starting value. *)
Lemma records_zero best l :
  records best l = 0%nat <-> Forall (fun r => r <= best) l.
Proof.
  induction l as [|x l IH]; cbn.
  - split; [intros _; apply Forall_nil_2 | reflexivity].
  - destruct (Qgtb x best) eqn:Hx.
    + split; [discriminate|]. intros H. apply Forall_cons in H.
      destruct H as [Hle _]. apply Qgtb_false in Hle. congruence.
    + rewrite IH. apply Qgtb_false in Hx. split.
      * intros H. apply Forall_cons. split; assumption.
      * intros H. apply Forall_cons in H. apply H.
Qed.

Lemma running_best_no_record best l :
  Forall (fun r => r <= best) l -> running_best best l = best.
Proof.
  induction 1 as [|x l Hx _ IH]; [reflexivity|].
  unfold running_best in *. cbn. apply Qgtb_false in Hx. rewrite Hx. exact IH.
Qed.

(** Past the last milestone a scheduler step leaves the rate alone. *)
Lemma notebook_get_lr_past_milestones e rate :
  (85 < e)%Z ->
  MultiStepLR_get_lr scheduler_milestones scheduler_gamma e rate = rate.
Proof.
  intros He. unfold MultiStepLR_get_lr, scheduler_milestones.
  cbn [count_occ].
  destruct (Z.eq_dec 70%Z e); [lia|]. destruct (Z.eq_dec 85%Z e); [lia|].
  reflexivity.
Qed.

(** ** The training cell from any world *)

Section TrainingCell.

Context {E : Type}.
Variable model : nn_module.
Variable training_epoch :
  nn_module -> DataLoader -> SGD -> loss_fn -> lib E Q.
Variable evaluate_model :
  nn_module -> DataLoader -> lib E (list nat * list nat * Q * Q * Q * Q * Q).

Local Abbreviation body := (epoch_body model training_epoch evaluate_model).
Local Abbreviation after :=
  (after_epochs model training_epoch evaluate_model).
Local Abbreviation epochs :=
  (train_epochs model training_epoch evaluate_model).
Local Abbreviation run := (notebook model training_epoch evaluate_model).
Local Abbreviation train :=
  (cell_train model training_epoch evaluate_model).

Lemma train_epochs_0 w :
  epochs 0 w =
    (Ok tt,
     set_best_recall 0
       (set_best_f1_score 0
          (set_best_state {| oid := next_oid w; items := parameters model |}
             (set_next_oid (S (next_oid w)) w)))).
Proof. reflexivity. Qed.

Lemma train_epochs_S k w :
  epochs (S k) w = bind (epochs k) (fun _ => body k) w.
Proof.
  unfold train_epochs. rewrite bind_assoc.
  destruct (cell_train_init model w) as [[[]|e] w1] eqn:H1.
  - rewrite !(bind_Ok_l _ _ _ _ _ H1). apply for_each_range_S.
  - rewrite !(bind_Raised_l _ _ _ _ _ H1). reflexivity.
Qed.

Lemma train_epochs_S_Ok k w w' :
  epochs (S k) w = (Ok tt, w') ->
  exists wk, epochs k w = (Ok tt, wk) /\ body k wk = (Ok tt, w').
Proof.
  rewrite train_epochs_S. intros H. apply bind_Ok in H.
  destruct H as ([] & wk & Hk & Hb). exists wk. split; assumption.
Qed.

(** A run that starts with the optimizer cell is the training cell started
    at rate [LEARNING_RATE] with the counter at 0. *)
Lemma after_epochs_train k w0 :
  after k w0 = epochs k (set_schedule 0 LEARNING_RATE w0).
Proof. reflexivity. Qed.

Lemma cell_train_split w :
  train w = bind (epochs N_EPOCHS) (fun _ => cell_train_finish model) w.
Proof.
  unfold cell_train, train_epochs. rewrite !bind_assoc.
  destruct (cell_train_init model w) as [[[]|e] w1] eqn:H1.
  - rewrite !(bind_Ok_l _ _ _ _ _ H1). reflexivity.
  - rewrite !(bind_Raised_l _ _ _ _ _ H1). reflexivity.
Qed.

Lemma notebook_train w0 :
  run w0 = train (set_schedule 0 LEARNING_RATE w0).
Proof. reflexivity. Qed.

(** When an epoch raises, one of its two passes has raised, and the world
    is the one the epoch started in, with the epoch's line, the entries of
    the calls made, and the machine as the failing pass left it. *)
Lemma epoch_body_Raised epoch w e w' :
  body epoch w = (Raised e, w') ->
  (training_epoch model train_loader (train_optimizer w) LOSS_FN (mach w)
     = (Raised e, mach w') /\
   out w' = out w ++ [Printed (EpochLine epoch);
                      Enter (training_epoch_call train_loader)]) \/
  (exists loss m1,
     training_epoch model train_loader (train_optimizer w) LOSS_FN (mach w)
       = (Ok loss, m1) /\
     evaluate_model model validation_loader m1 = (Raised e, mach w') /\
     out w' = out w ++ [Printed (EpochLine epoch);
                        Enter (training_epoch_call train_loader);
                        Enter (evaluate_model_call validation_loader)]).
Proof.
  intros H.
  destruct (training_epoch model train_loader (train_optimizer w) LOSS_FN
              (mach w)) as [[loss|e1] m1] eqn:Ht.
  - destruct (evaluate_model model validation_loader m1)
      as [[ev|e2] m2] eqn:Hv.
    + destruct (epoch_body_completes _ _ _ epoch w _ _ _ _ Ht Hv)
        as (w2 & Hb & _).
      rewrite Hb in H. discriminate H.
    + rewrite (epoch_body_validation_raises _ _ _ epoch w _ _ _ _ Ht Hv) in H.
      inversion H; subst; clear H. right. exists loss, m1. cbn.
      rewrite <- !app_assoc. auto.
  - rewrite (epoch_body_training_raises _ _ _ epoch w _ _ Ht) in H.
    inversion H; subst; clear H. left. cbn. rewrite <- !app_assoc. auto.
Qed.

(** What the training cell has done after [k] completed epochs, from any
    world [w]. *)
Lemma train_epochs_inv k w w' :
  epochs k w = (Ok tt, w') ->
  last_epoch w' = (last_epoch w + Z.of_nat k)%Z /\
  items (best_state w') = parameters model /\
  S (oid (best_state w')) = next_oid w' /\
  exists tr,
    out w' = out w ++ tr /\
    next_oid w' = (S (next_oid w) + new_best_lines tr)%nat /\
    (new_best_lines tr <= k)%nat /\
    epoch_lines tr = range k /\
    scalar_steps "Train/loss" tr = range k /\
    scalar_steps "F1" tr = range k /\
    scalar_steps "Recall" tr = range k /\
    calls tr = concat (repeat epoch_calls k) /\
    best_recall w' = running_best 0 (scalars "Recall" tr) /\
    best_f1_score w' = running_best 0 (scalars "F1" tr) /\
    new_best_lines tr = records 0 (scalars "Recall" tr).
Proof.
  revert w'. induction k as [|k IH]; intros w' H.
  - rewrite train_epochs_0 in H. inversion H; subst; clear H. cbn.
    split; [lia|]. split; [reflexivity|]. split; [reflexivity|].
    exists []. rewrite app_nil_r. cbn. repeat split; try reflexivity; lia.
  - apply train_epochs_S_Ok in H. destruct H as (wk & Hk & Hb).
    destruct (IH wk Hk)
      as (Hep & Hitems & Hoid & tr & Hout & Hno & Hle & Hel & Hsl & Hsf & Hsr &
          Hcalls & Hbr & Hbf & Hrec).
    apply epoch_body_Ok in Hb.
    destruct Hb as (loss & m1 & a & p & x3 & x4 & recall & x6 & f1 &
                    _ & _ & Hbf' & Hbr' & Hbs' & Hno' & Hep' & _ & Hout').
    set (seg := [Printed (EpochLine k);
                 Enter (training_epoch_call train_loader);
                 Enter (evaluate_model_call validation_loader)] ++
                (if Qgtb recall (best_recall wk)
                 then [Printed NewBestLine] else []) ++
                [AddScalar "Train/loss" loss k; AddScalar "F1" f1 k;
                 AddScalar "Recall" recall k; Enter scheduler_step_call])
      in *.
    assert (Hc : calls seg = epoch_calls)
      by (subst seg; destruct (Qgtb recall (best_recall wk)); reflexivity).
    assert (Hvr : scalars "Recall" seg = [recall])
      by (subst seg; destruct (Qgtb recall (best_recall wk)); reflexivity).
    assert (Hvf : scalars "F1" seg = [f1])
      by (subst seg; destruct (Qgtb recall (best_recall wk)); reflexivity).
    assert (Hkl : scalar_steps "Train/loss" seg = [k])
      by (subst seg; destruct (Qgtb recall (best_recall wk)); reflexivity).
    assert (Hkf : scalar_steps "F1" seg = [k])
      by (subst seg; destruct (Qgtb recall (best_recall wk)); reflexivity).
    assert (Hkr : scalar_steps "Recall" seg = [k])
      by (subst seg; destruct (Qgtb recall (best_recall wk)); reflexivity).
    assert (Hke : epoch_lines seg = [k])
      by (subst seg; destruct (Qgtb recall (best_recall wk)); reflexivity).
    assert (Hnb : new_best_lines seg =
                  if Qgtb recall (best_recall wk) then 1%nat else 0%nat)
      by (subst seg; destruct (Qgtb recall (best_recall wk)); reflexivity).
    split; [rewrite Hep', Hep; lia|].
    split; [rewrite Hbs';
            destruct (Qgtb recall (best_recall wk)); [reflexivity | exact Hitems]|].
    split; [rewrite Hbs', Hno';
            destruct (Qgtb recall (best_recall wk)); [reflexivity | exact Hoid]|].
    exists (tr ++ seg).
    rewrite new_best_lines_app, epoch_lines_app, !scalar_steps_app, calls_app,
      !scalars_app, Hc, Hvr, Hvf, Hkl, Hkf, Hkr, Hke, Hnb,
      running_best_snoc, running_best_snoc, records_snoc,
      Hel, Hsl, Hsf, Hsr, Hcalls, <- Hbr, <- Hbf, <- Hrec, range_S.
    split; [rewrite Hout', Hout, <- app_assoc; reflexivity|].
    split; [rewrite Hno', Hno;
            destruct (Qgtb recall (best_recall wk)); lia|].
    split; [destruct (Qgtb recall (best_recall wk)); lia|].
    repeat (split; [reflexivity|]).
    split; [rewrite repeat_snoc, concat_app; cbn [concat];
            rewrite app_nil_r; reflexivity|].
    split; [exact Hbr'|]. split; [exact Hbf' | reflexivity].
Qed.

(** The closing statements after the loop, from any world reached by the
    training cell. *)
Lemma cell_train_completes w wl :
  epochs N_EPOCHS w = (Ok tt, wl) ->
  train w =
    (Ok tt,
     emit (Printed (BestRecallLine N_EPOCHS (best_recall wl)))
       (emit (Printed (BestF1Line N_EPOCHS (best_f1_score wl)))
          (emit (Enter (load_state_dict_call (best_state wl))) wl))).
Proof.
  intros Hl.
  destruct (train_epochs_inv _ _ _ Hl) as (_ & Hitems & _).
  rewrite cell_train_split, (bind_Ok_l _ _ _ _ _ Hl).
  unfold cell_train_finish, gets, print, modify.
  rewrite (bind_Ok_l _ _ wl (best_state wl) wl) by reflexivity.
  rewrite (bind_Ok_l _ _ _ _ _ (load_state_dict_own model _ wl Hitems)).
  reflexivity.
Qed.

Lemma cell_train_Ok w w' :
  train w = (Ok tt, w') ->
  exists wl,
    epochs N_EPOCHS w = (Ok tt, wl) /\
    w' = emit (Printed (BestRecallLine N_EPOCHS (best_recall wl)))
           (emit (Printed (BestF1Line N_EPOCHS (best_f1_score wl)))
              (emit (Enter (load_state_dict_call (best_state wl))) wl)).
Proof.
  intros H. pose proof H as H'. rewrite cell_train_split in H'.
  apply bind_Ok in H'. destruct H' as ([] & wl & Hl & _).
  exists wl. split; [exact Hl|].
  rewrite (cell_train_completes _ _ Hl) in H. inversion H. reflexivity.
Qed.

(** When the training cell raises, some epoch has raised after the epochs
    before it completed. *)
Lemma cell_train_Raised w e w' :
  train w = (Raised e, w') ->
  exists k wk,
    (k < N_EPOCHS)%nat /\
    epochs k w = (Ok tt, wk) /\
    body k wk = (Raised e, w').
Proof.
  intros H.
  assert (Hn : forall n, epochs n w = (Raised e, w') ->
                         exists k wk, (k < n)%nat /\
                                      epochs k w = (Ok tt, wk) /\
                                      body k wk = (Raised e, w')).
  { induction n as [|n IH]; intros Hr.
    - rewrite train_epochs_0 in Hr. discriminate Hr.
    - rewrite train_epochs_S in Hr.
      destruct (epochs n w) as [[[]|e1] wn] eqn:Hk.
      + rewrite (bind_Ok_l _ _ _ _ _ Hk) in Hr.
        exists n, wn. split; [lia|]. split; [exact Hk | exact Hr].
      + rewrite (bind_Raised_l _ _ _ _ _ Hk) in Hr.
        inversion Hr; subst.
        destruct (IH eq_refl) as (k & wk & Hlt & Hwk & Hb).
        exists k, wk. split; [lia|]. split; assumption. }
  apply Hn.
  destruct (epochs N_EPOCHS w) as [[[]|e1] wl] eqn:Hl.
  - rewrite (cell_train_completes _ _ Hl) in H. discriminate H.
  - rewrite cell_train_split, (bind_Raised_l _ _ _ _ _ Hl) in H.
    inversion H; subst. reflexivity.
Qed.

End TrainingCell.

(** ** What the log, the console and the schedule show *)

Section Further.

Context {E : Type}.
Variable model : nn_module.
Variable training_epoch :
  nn_module -> DataLoader -> SGD -> loss_fn -> lib E Q.
Variable evaluate_model :
  nn_module -> DataLoader -> lib E (list nat * list nat * Q * Q * Q * Q * Q).

Local Abbreviation body := (epoch_body model training_epoch evaluate_model).
Local Abbreviation after :=
  (after_epochs model training_epoch evaluate_model).
Local Abbreviation epochs :=
  (train_epochs model training_epoch evaluate_model).
Local Abbreviation run := (notebook model training_epoch evaluate_model).
Local Abbreviation train :=
  (cell_train model training_epoch evaluate_model).

(** Past the last milestone the training cell leaves the rate alone. *)
Lemma train_epochs_lr_past_milestones k w wk :
  (85 <= last_epoch w)%Z ->
  epochs k w = (Ok tt, wk) ->
  lr wk = lr w.
Proof.
  intros Hpast. revert wk. induction k as [|k IH]; intros wk H.
  - rewrite train_epochs_0 in H. inversion H. reflexivity.
  - apply train_epochs_S_Ok in H. destruct H as (w1 & Hk & Hb).
    destruct (train_epochs_inv _ _ _ _ _ _ Hk) as (Hep & _).
    apply epoch_body_Ok in Hb.
    destruct Hb as (loss & m1 & a & p & x3 & x4 & recall & x6 & f1 &
                    _ & _ & _ & _ & _ & _ & _ & Hlr & _).
    rewrite Hlr, (IH _ Hk). apply notebook_get_lr_past_milestones. lia.
Qed.

(** X1.  In a notebook that runs to its end, the console shows the epoch
    lines 0, 1, ..., 99 in this order, and each of the three tensorboard
    tags is logged once per epoch, under the steps 0, 1, ..., 99 in this
    order: no step is skipped or logged twice. *)
Theorem log_steps_follow_epochs w0 w' :
  run w0 = (Ok tt, w') ->
  exists tr,
    out w' = out w0 ++ tr /\
    epoch_lines tr = range N_EPOCHS /\
    scalar_steps "Train/loss" tr = range N_EPOCHS /\
    scalar_steps "F1" tr = range N_EPOCHS /\
    scalar_steps "Recall" tr = range N_EPOCHS.
Proof.
  rewrite notebook_train. intros H. apply cell_train_Ok in H.
  destruct H as (wl & Hl & ->).
  destruct (train_epochs_inv _ _ _ _ _ _ Hl)
    as (_ & _ & _ & tr & Hout & _ & _ & Hel & Hsl & Hsf & Hsr & _).
  cbn [out set_schedule] in Hout.
  set (fin := [Enter (load_state_dict_call (best_state wl));
               Printed (BestF1Line N_EPOCHS (best_f1_score wl));
               Printed (BestRecallLine N_EPOCHS (best_recall wl))]).
  exists (tr ++ fin).
  rewrite epoch_lines_app, !scalar_steps_app, Hel, Hsl, Hsf, Hsr.
  change (epoch_lines fin) with (@nil nat).
  change (scalar_steps "Train/loss" fin) with (@nil nat).
  change (scalar_steps "F1" fin) with (@nil nat).
  change (scalar_steps "Recall" fin) with (@nil nat).
  rewrite !app_nil_r.
  split; [cbn [out emit]; rewrite Hout, <- !app_assoc; reflexivity|].
  auto.
Qed.

(** X2.  After any number of epochs, [state_dict()] has been called once
    before the loop and once for every new best announced on the console,
    never otherwise; [best_state] is the dictionary built by the latest of
    these calls; and at most one new best is announced per epoch. *)
Theorem best_state_is_latest_state_dict k w0 wk :
  after k w0 = (Ok tt, wk) ->
  exists tr,
    out wk = out w0 ++ tr /\
    next_oid wk = (S (next_oid w0) + new_best_lines tr)%nat /\
    S (oid (best_state wk)) = next_oid wk /\
    (new_best_lines tr <= k)%nat.
Proof.
  rewrite after_epochs_train. intros H.
  destruct (train_epochs_inv _ _ _ _ _ _ H)
    as (_ & _ & Hoid & tr & Hout & Hno & Hle & _).
  exists tr. auto.
Qed.

(** X3.  In a notebook that runs to its end, the two best metrics and the
    number of new bests announced are functions of the logged values alone:
    [best_recall] and [best_f1_score] are what is left when a variable that
    starts at 0.0 is offered the logged recalls (F1 scores) in order and
    takes each one that is strictly greater, and a new best is announced
    once for every logged recall that is strictly above 0.0 and above all
    recalls logged before it. *)
Theorem best_metrics_follow_the_log w0 w' :
  run w0 = (Ok tt, w') ->
  exists tr,
    out w' = out w0 ++ tr /\
    best_recall w' = running_best 0 (scalars "Recall" tr) /\
    best_f1_score w' = running_best 0 (scalars "F1" tr) /\
    new_best_lines tr = records 0 (scalars "Recall" tr).
Proof.
  rewrite notebook_train. intros H. apply cell_train_Ok in H.
  destruct H as (wl & Hl & ->).
  destruct (train_epochs_inv _ _ _ _ _ _ Hl)
    as (_ & _ & _ & tr & Hout & _ & _ & _ & _ & _ & _ & _ & Hbr & Hbf & Hrec).
  cbn [out set_schedule] in Hout.
  set (fin := [Enter (load_state_dict_call (best_state wl));
               Printed (BestF1Line N_EPOCHS (best_f1_score wl));
               Printed (BestRecallLine N_EPOCHS (best_recall wl))]).
  exists (tr ++ fin).
  rewrite !scalars_app, new_best_lines_app.
  change (scalars "Recall" fin) with (@nil Q).
  change (scalars "F1" fin) with (@nil Q).
  change (new_best_lines fin) with 0%nat.
  rewrite !app_nil_r, Nat.add_0_r.
  split; [cbn [out emit]; rewrite Hout, <- !app_assoc; reflexivity|].
  cbn [best_recall best_f1_score emit]. auto.
Qed.

(** X4.  After any number of epochs, no new best has been announced exactly
    when no recall logged so far is above 0.0 (a recall equal to 0.0 does
    not count); and then [best_recall] is still 0.0 and [best_state] is
    still the dictionary built before the first epoch. *)
Theorem no_new_best_iff_no_positive_recall k w0 wk tr :
  after k w0 = (Ok tt, wk) ->
  out wk = out w0 ++ tr ->
  (new_best_lines tr = 0%nat <->
   Forall (fun r => r <= 0) (scalars "Recall" tr)) /\
  (new_best_lines tr = 0%nat ->
   best_recall wk = 0 /\
   best_state wk = {| oid := next_oid w0; items := parameters model |}).
Proof.
  rewrite after_epochs_train. intros H Hout.
  destruct (train_epochs_inv _ _ _ _ _ _ H)
    as (_ & Hitems & Hoid & tr1 & Hout1 & Hno & _ & _ & _ & _ & _ & _ &
        Hbr & _ & Hrec).
  cbn in Hout1, Hno. rewrite Hout1 in Hout. apply app_inv_head in Hout.
  subst tr1. split.
  - rewrite Hrec. apply records_zero.
  - intros Hz. split.
    + rewrite Hbr. apply running_best_no_record, records_zero.
      rewrite <- Hrec. exact Hz.
    + rewrite Hz, Nat.add_0_r in Hno. rewrite Hno in Hoid.
      destruct (best_state wk) as [i d]. cbn in *.
      injection Hoid as ->. rewrite Hitems. reflexivity.
Qed.

(** X5.  A notebook that stops with an exception stops in some epoch
    [k < 100], in the training pass or the validation pass of that epoch,
    after the [k] epochs before it completed: no other statement of the
    cells raises.  The console then shows the epoch lines 0, ..., k, and
    each tensorboard tag holds the steps 0, ..., k-1: nothing of the failing
    epoch is logged. *)
Theorem failure_comes_from_a_pass w0 e w' :
  run w0 = (Raised e, w') ->
  exists k wk tr,
    (k < N_EPOCHS)%nat /\
    after k w0 = (Ok tt, wk) /\
    (training_epoch model train_loader (train_optimizer wk) LOSS_FN (mach wk)
       = (Raised e, mach w') \/
     exists loss m1,
       training_epoch model train_loader (train_optimizer wk) LOSS_FN (mach wk)
         = (Ok loss, m1) /\
       evaluate_model model validation_loader m1 = (Raised e, mach w')) /\
    out w' = out w0 ++ tr /\
    epoch_lines tr = range (S k) /\
    scalar_steps "Train/loss" tr = range k /\
    scalar_steps "F1" tr = range k /\
    scalar_steps "Recall" tr = range k.
Proof.
  rewrite notebook_train. intros H. apply cell_train_Raised in H.
  destruct H as (k & wk & Hlt & Hk & Hb).
  destruct (train_epochs_inv _ _ _ _ _ _ Hk)
    as (_ & _ & _ & tr & Hout & _ & _ & Hel & Hsl & Hsf & Hsr & _).
  cbn [out set_schedule] in Hout.
  apply epoch_body_Raised in Hb.
  destruct Hb as [(Ht & Hout') | (loss & m1 & Ht & Hv & Hout')].
  - set (seg := [Printed (EpochLine k);
                 Enter (training_epoch_call train_loader)]) in *.
    exists k, wk, (tr ++ seg).
    rewrite epoch_lines_app, !scalar_steps_app, Hel, Hsl, Hsf, Hsr, range_S.
    change (epoch_lines seg) with [k].
    change (scalar_steps "Train/loss" seg) with (@nil nat).
    change (scalar_steps "F1" seg) with (@nil nat).
    change (scalar_steps "Recall" seg) with (@nil nat).
    rewrite !app_nil_r, Hout', Hout, <- app_assoc.
    split; [exact Hlt|]. split; [exact Hk|]. split; [left; exact Ht|]. auto.
  - set (seg := [Printed (EpochLine k);
                 Enter (training_epoch_call train_loader);
                 Enter (evaluate_model_call validation_loader)]) in *.
    exists k, wk, (tr ++ seg).
    rewrite epoch_lines_app, !scalar_steps_app, Hel, Hsl, Hsf, Hsr, range_S.
    change (epoch_lines seg) with [k].
    change (scalar_steps "Train/loss" seg) with (@nil nat).
    change (scalar_steps "F1" seg) with (@nil nat).
    change (scalar_steps "Recall" seg) with (@nil nat).
    rewrite !app_nil_r, Hout', Hout, <- app_assoc.
    split; [exact Hlt|]. split; [exact Hk|].
    split; [right; exists loss, m1; split; assumption|]. auto.
Qed.

(** X6.  Running the training cell a second time, after the notebook has
    run to its end and without running the optimizer cell again, does not
    restart the schedule: the scheduler's counter goes on from 100 to 200,
    every epoch of the second run trains at the rate 0.00001, and the best
    recall the second run ends with is computed from the recalls of the
    second run alone, starting again from 0.0. *)
Theorem rerun_keeps_decayed_rate w0 w1 w2 :
  run w0 = (Ok tt, w1) ->
  train w1 = (Ok tt, w2) ->
  last_epoch w2 = 200%Z /\
  lr w2 = 1 # 100000 /\
  (forall k wk, epochs k w1 = (Ok tt, wk) ->
                sgd_lr (train_optimizer wk) = 1 # 100000) /\
  exists tr,
    out w2 = out w1 ++ tr /\
    best_recall w2 = running_best 0 (scalars "Recall" tr).
Proof.
  rewrite notebook_train. intros H1 H2.
  apply cell_train_Ok in H1. destruct H1 as (wl & Hl & ->).
  destruct (after_epochs_inv model training_epoch evaluate_model
              N_EPOCHS w0 wl Hl) as (_ & _ & Hep & Hlr & _).
  set (w1 := emit _ _) in *.
  assert (Hep1 : last_epoch w1 = 100%Z) by exact Hep.
  assert (Hlr1 : lr w1 = 1 # 100000) by exact Hlr.
  assert (Hrate : forall k wk, epochs k w1 = (Ok tt, wk) ->
                               lr wk = 1 # 100000).
  { intros k wk Hk. rewrite <- Hlr1.
    apply (train_epochs_lr_past_milestones k w1 wk); [lia | exact Hk]. }
  apply cell_train_Ok in H2. destruct H2 as (wl2 & Hl2 & ->).
  destruct (train_epochs_inv _ _ _ _ _ _ Hl2)
    as (Hep2 & _ & _ & tr & Hout & _ & _ & _ & _ & _ & _ & _ & Hbr & _).
  cbn [last_epoch lr emit out best_recall].
  split; [rewrite Hep2, Hep1; reflexivity|].
  split; [exact (Hrate _ _ Hl2)|].
  split; [exact Hrate|].
  set (fin := [Enter (load_state_dict_call (best_state wl2));
               Printed (BestF1Line N_EPOCHS (best_f1_score wl2));
               Printed (BestRecallLine N_EPOCHS (best_recall wl2))]).
  exists (tr ++ fin).
  rewrite !scalars_app. change (scalars "Recall" fin) with (@nil Q).
  rewrite app_nil_r, Hout, <- !app_assoc. auto.
Qed.

(** X8.  The notebook adds nothing to what the two passes do to the
    machine, and no failure of its own: the first [k] epochs complete with
    machine [m] exactly when applying, for the epochs 0, ..., k-1 in turn,
    the training pass (with the optimizer at the scheduled rate, momentum
    0.9 and weight decay 0.0005) and then the validation pass to the
    initial machine gives [m].  Tracking the best metrics, building
    dictionaries, logging and stepping the scheduler never touch a tensor
    or the collaborators' state. *)
Theorem machine_is_the_passes_alone k w0 m :
  (exists wk, after k w0 = (Ok tt, wk) /\ mach wk = m) <->
  passes_only model training_epoch evaluate_model k (mach w0) = Some m.
Proof.
  revert m. induction k as [|k IH]; intros m.
  - rewrite after_epochs_0. cbn. split.
    + intros (wk & Hk & Hm). inversion Hk; subst. reflexivity.
    + intros H. inversion H; subst. eexists. split; reflexivity.
  - cbn [passes_only]. split.
    + intros (w' & HS & Hm). apply after_epochs_S_Ok in HS.
      destruct HS as (wk & Hk & Hb).
      destruct (after_epochs_inv _ _ _ _ _ _ Hk) as (_ & _ & _ & Hlr & _).
      rewrite (proj1 (IH (mach wk)) (ex_intro _ wk (conj Hk eq_refl))).
      apply epoch_body_Ok in Hb.
      destruct Hb as (loss & m1 & a & p & x3 & x4 & recall & x6 & f1 &
                      Ht & Hv & _).
      unfold train_optimizer in Ht. rewrite Hlr in Ht.
      unfold scheduled_optimizer. rewrite Ht, Hv, Hm. reflexivity.
    + intros H.
      destruct (passes_only model training_epoch evaluate_model k (mach w0))
        as [mk|] eqn:Hp; [|discriminate H].
      destruct (proj2 (IH mk) eq_refl) as (wk & Hk & Hmk).
      destruct (after_epochs_inv _ _ _ _ _ _ Hk) as (_ & _ & _ & Hlr & _).
      destruct (training_epoch model train_loader (scheduled_optimizer k)
                  LOSS_FN mk) as [[loss|e1] m1] eqn:Ht; [|discriminate H].
      destruct (evaluate_model model validation_loader m1)
        as [[ev|e2] m2] eqn:Hv; [|discriminate H].
      inversion H; subst m2; clear H.
      assert (Ht' : training_epoch model train_loader (train_optimizer wk)
                      LOSS_FN (mach wk) = (Ok loss, m1)).
      { unfold train_optimizer. rewrite Hlr, Hmk. exact Ht. }
      destruct (epoch_body_completes _ _ _ k wk _ _ _ _ Ht' Hv)
        as (w' & Hb & Hm).
      exists w'. split; [|exact Hm].
      rewrite after_epochs_S, (bind_Ok_l _ _ _ _ _ Hk). exact Hb.
Qed.

End Further.

(** ** The further properties on the concrete session *)

Import SessionReruns.

Lemma log_steps_follow_epochs_witness :
  notebook model training_epoch peaked world0 = (Ok tt, peaked_end) /\
  exists tr,
    out peaked_end = out world0 ++ tr /\
    epoch_lines tr = range N_EPOCHS /\
    scalar_steps "Recall" tr = range N_EPOCHS.
Proof.
  assert (H : notebook model training_epoch peaked world0
              = (Ok tt, peaked_end)) by (vm_compute; reflexivity).
  split; [exact H|].
  destruct (log_steps_follow_epochs model training_epoch peaked world0 _ H)
    as (tr & Hout & Hel & _ & _ & Hsr).
  exists tr. auto.
Defined.

Lemma best_state_is_latest_state_dict_witness :
  after_epochs model training_epoch peaked 2 world0
    = (Ok tt, peaked_after 2) /\
  exists tr,
    out (peaked_after 2) = out world0 ++ tr /\
    next_oid (peaked_after 2) = (S (next_oid world0) + new_best_lines tr)%nat /\
    S (oid (best_state (peaked_after 2))) = next_oid (peaked_after 2).
Proof.
  assert (H : after_epochs model training_epoch peaked 2 world0
              = (Ok tt, peaked_after 2)) by (vm_compute; reflexivity).
  split; [exact H|].
  destruct (best_state_is_latest_state_dict
              model training_epoch peaked 2 world0 _ H)
    as (tr & Hout & Hno & Hoid & _).
  exists tr. auto.
Defined.

Lemma best_metrics_follow_the_log_witness :
  notebook model training_epoch peaked world0 = (Ok tt, peaked_end) /\
  exists tr,
    out peaked_end = out world0 ++ tr /\
    best_recall peaked_end = running_best 0 (scalars "Recall" tr) /\
    new_best_lines tr = records 0 (scalars "Recall" tr).
Proof.
  assert (H : notebook model training_epoch peaked world0
              = (Ok tt, peaked_end)) by (vm_compute; reflexivity).
  split; [exact H|].
  destruct (best_metrics_follow_the_log model training_epoch peaked world0 _ H)
    as (tr & Hout & Hbr & _ & Hrec).
  exists tr. auto.
Defined.

Lemma no_new_best_iff_no_positive_recall_witness :
  after_epochs model training_epoch flat 3 world0 = (Ok tt, flat_after 3) /\
  out (flat_after 3) = out world0 ++ out (flat_after 3) /\
  (new_best_lines (out (flat_after 3)) = 0%nat <->
   Forall (fun r => r <= 0) (scalars "Recall" (out (flat_after 3)))).
Proof.
  assert (H : after_epochs model training_epoch flat 3 world0
              = (Ok tt, flat_after 3)) by (vm_compute; reflexivity).
  assert (Hout : out (flat_after 3) = out world0 ++ out (flat_after 3))
    by (vm_compute; reflexivity).
  split; [exact H|]. split; [exact Hout|].
  exact (proj1 (no_new_best_iff_no_positive_recall
                  model training_epoch flat 3 world0 _ _ H Hout)).
Defined.

Lemma failure_comes_from_a_pass_witness :
  notebook model failing_training_epoch peaked world0
    = (Raised (Exception "RuntimeError" "size mismatch"), failing_end) /\
  exists k tr,
    (k < N_EPOCHS)%nat /\
    out failing_end = out world0 ++ tr /\
    epoch_lines tr = range (S k) /\
    scalar_steps "Recall" tr = range k.
Proof.
  assert (H : notebook model failing_training_epoch peaked world0
              = (Raised (Exception "RuntimeError" "size mismatch"),
                 failing_end)) by (vm_compute; reflexivity).
  split; [exact H|].
  destruct (failure_comes_from_a_pass
              model failing_training_epoch peaked world0 _ _ H)
    as (k & _ & tr & Hlt & _ & _ & Hout & Hel & _ & _ & Hsr).
  exists k, tr. auto.
Defined.

Lemma rerun_keeps_decayed_rate_witness :
  notebook model training_epoch peaked world0 = (Ok tt, peaked_end) /\
  cell_train model training_epoch peaked peaked_end
    = (Ok tt, peaked_rerun_end) /\
  last_epoch peaked_rerun_end = 200%Z /\
  lr peaked_rerun_end = 1 # 100000.
Proof.
  assert (H1 : notebook model training_epoch peaked world0
               = (Ok tt, peaked_end)) by (vm_compute; reflexivity).
  assert (H2 : cell_train model training_epoch peaked peaked_end
               = (Ok tt, peaked_rerun_end)) by (vm_compute; reflexivity).
  split; [exact H1|]. split; [exact H2|].
  destruct (rerun_keeps_decayed_rate
              model training_epoch peaked world0 _ _ H1 H2)
    as (Hep & Hlr & _).
  auto.
Defined.

(** ** The epoch of the best recall *)

Section BestEpoch.

Context {E : Type}.
Variable model : nn_module.
Variable training_epoch :
  nn_module -> DataLoader -> SGD -> loss_fn -> lib E Q.
Variable evaluate_model :
  nn_module -> DataLoader -> lib E (list nat * list nat * Q * Q * Q * Q * Q).

Local Abbreviation after :=
  (after_epochs model training_epoch evaluate_model).
Local Abbreviation epochs :=
  (train_epochs model training_epoch evaluate_model).

(** Either nothing has improved on 0.0 yet, or the trace splits at the last
    announcement, which is followed by the scalars of its epoch, the recall
    among them being [best_recall]. *)
Lemma train_epochs_last_best k w w' :
  epochs k w = (Ok tt, w') ->
  exists tr,
    out w' = out w ++ tr /\
    ((best_recall w' = 0 /\ new_best_lines tr = 0%nat) \/
     (0 < best_recall w' /\
      exists j tr1 tr2 loss f1,
        (j < k)%nat /\
        tr = tr1 ++
             [Printed NewBestLine;
              AddScalar "Train/loss" loss j;
              AddScalar "F1" f1 j;
              AddScalar "Recall" (best_recall w') j;
              Enter scheduler_step_call] ++ tr2 /\
        new_best_lines tr2 = 0%nat)).
Proof.
  revert w'. induction k as [|k IH]; intros w' H.
  - rewrite train_epochs_0 in H. inversion H; subst; clear H. cbn.
    exists []. rewrite app_nil_r. split; [reflexivity|]. left. auto.
  - apply train_epochs_S_Ok in H. destruct H as (wk & Hk & Hb).
    destruct (IH wk Hk) as (tr & Hout & Hcase).
    apply epoch_body_Ok in Hb.
    destruct Hb as (loss & m1 & a & p & x3 & x4 & recall & x6 & f1 &
                    _ & _ & _ & Hbr & _ & _ & _ & _ & Hout').
    assert (Hnonneg : 0 <= best_recall wk).
    { destruct Hcase as [[H0 _] | [Hpos _]].
      - rewrite H0. apply Qle_refl.
      - apply Qlt_le_weak. exact Hpos. }
    destruct (Qgtb recall (best_recall wk)) eqn:Hg.
    + apply Qgtb_true in Hg.
      exists (tr ++ [Printed (EpochLine k);
                     Enter (training_epoch_call train_loader);
                     Enter (evaluate_model_call validation_loader)] ++
                    [Printed NewBestLine;
                     AddScalar "Train/loss" loss k;
                     AddScalar "F1" f1 k;
                     AddScalar "Recall" recall k;
                     Enter scheduler_step_call]).
      split; [rewrite Hout', Hout, <- !app_assoc; reflexivity|].
      right. rewrite Hbr.
      split; [eapply Qle_lt_trans; eassumption|].
      exists k, (tr ++ [Printed (EpochLine k);
                        Enter (training_epoch_call train_loader);
                        Enter (evaluate_model_call validation_loader)]),
        [], loss, f1.
      split; [lia|]. split; [|reflexivity].
      rewrite <- !app_assoc. reflexivity.
    + set (seg := [Printed (EpochLine k);
                   Enter (training_epoch_call train_loader);
                   Enter (evaluate_model_call validation_loader);
                   AddScalar "Train/loss" loss k;
                   AddScalar "F1" f1 k;
                   AddScalar "Recall" recall k;
                   Enter scheduler_step_call]).
      exists (tr ++ seg).
      split; [rewrite Hout', Hout, <- !app_assoc; reflexivity|].
      rewrite Hbr.
      destruct Hcase as [[H0 Hn] | [Hpos (j & tr1 & tr2 & l & f & Hj & Htr & Hn)]].
      * left. split; [exact H0|].
        rewrite new_best_lines_app, Hn. reflexivity.
      * right. split; [exact Hpos|].
        exists j, tr1, (tr2 ++ seg), l, f.
        split; [lia|]. split.
        -- rewrite Htr, <- !app_assoc. reflexivity.
        -- rewrite new_best_lines_app, Hn. reflexivity.
Qed.

(** X9.  Once [best_recall] is above 0.0, the log tells which epoch it
    comes from: the last new best announced on the console is followed at
    once by the three scalars of its epoch [j], the recall logged under
    step [j] is [best_recall], and nothing is announced after. *)
Theorem best_recall_is_logged_after_last_announcement k w0 wk tr :
  after k w0 = (Ok tt, wk) ->
  out wk = out w0 ++ tr ->
  0 < best_recall wk ->
  exists j tr1 tr2 loss f1,
    (j < k)%nat /\
    tr = tr1 ++
         [Printed NewBestLine;
          AddScalar "Train/loss" loss j;
          AddScalar "F1" f1 j;
          AddScalar "Recall" (best_recall wk) j;
          Enter scheduler_step_call] ++ tr2 /\
    new_best_lines tr2 = 0%nat.
Proof.
  rewrite after_epochs_train. intros H Hout Hpos.
  destruct (train_epochs_last_best _ _ _ H) as (tr' & Hout' & Hcase).
  cbn [out set_schedule] in Hout'. rewrite Hout' in Hout.
  apply app_inv_head in Hout. subst tr'.
  destruct Hcase as [[H0 _] | [_ Hsplit]].
  - rewrite H0 in Hpos. exfalso. exact (Qlt_irrefl _ Hpos).
  - exact Hsplit.
Qed.

End BestEpoch.

Lemma best_recall_is_logged_after_last_announcement_witness :
  after_epochs model training_epoch peaked 3 world0
    = (Ok tt, peaked_after 3) /\
  out (peaked_after 3) = out world0 ++ out (peaked_after 3) /\
  0 < best_recall (peaked_after 3) /\
  exists j tr1 tr2 loss f1,
    (j < 3)%nat /\
    out (peaked_after 3) =
      tr1 ++
      [Printed NewBestLine;
       AddScalar "Train/loss" loss j;
       AddScalar "F1" f1 j;
       AddScalar "Recall" (best_recall (peaked_after 3)) j;
       Enter scheduler_step_call] ++ tr2 /\
    new_best_lines tr2 = 0%nat.
Proof.
  assert (H : after_epochs model training_epoch peaked 3 world0
              = (Ok tt, peaked_after 3)) by (vm_compute; reflexivity).
  assert (Hout : out (peaked_after 3) = out world0 ++ out (peaked_after 3))
    by (vm_compute; reflexivity).
  assert (Hpos : 0 < best_recall (peaked_after 3))
    by (vm_compute; reflexivity).
  split; [exact H|]. split; [exact Hout|]. split; [exact Hpos|].
  exact (best_recall_is_logged_after_last_announcement
           model training_epoch peaked 3 world0 _ _ H Hout Hpos).
Defined.
